(** * ETHpredictTFT: the data-shaping stages of [ethpredictiontft.py]

    The script fetches daily ETH/USD bars over HTTP, derives a day index and
    a training cutoff, configures a windowed dataset, a Temporal Fusion
    Transformer and a trainer, and pairs the forecast with future dates.

    The embedding follows the script top to bottom.  Everything the script
    computes itself is a Rocq function; what it delegates to [pandas],
    [pytorch_forecasting] and [pytorch_lightning] appears either as a small
    model of the documented behaviour or as a parameter of a section.

    Conventions.
    - A Python [int] is a [Z]; a decimal literal such as [1e-3] is the
      rational it denotes ([Q]); no arithmetic is done on prices, which are
      carried as decoded JSON values.
    - A [pandas] timestamp is a count of nanoseconds since the Unix epoch
      ([Z]), or [NaT]; all instants are taken to lie inside the range
      [pandas] can represent.
    - An exception that nothing catches is a [Raise] result. *)

From Stdlib Require Import ZArith QArith List String Bool Lia Sorted Relations Permutation.
Import ListNotations.
Open Scope string_scope.
Open Scope list_scope.
Open Scope Z_scope.

Set Implicit Arguments.
Set Warnings "-register-all".

(* ================================================================== *)
(** ** Python values and exceptions *)

(** The value [response.json()] returns: a decoded JSON document.  A
    dictionary is kept as the list of its items. *)
Inductive pyobj : Type :=
| PNone
| PBool (b : bool)
| PInt (z : Z)
| PFloat (q : Q)
| PStr (s : string)
| PList (l : list pyobj)
| PDict (d : list (string * pyobj)).

Inductive exn : Type :=
| ConnectionError
| JSONDecodeError
| KeyError (k : string)
| TypeError
| ValueError
| IndexError
| LibraryError (msg : string).

Inductive result (A : Type) : Type :=
| Ok (a : A)
| Raise (e : exn).
Arguments Raise {A} e.

Fixpoint dict_get (d : list (string * pyobj)) (k : string) : option pyobj :=
  match d with
  | [] => None
  | (k', v) :: d' => if String.eqb k' k then Some v else dict_get d' k
  end.

(** [obj[key]] for a string key: a dictionary answers or raises
    [KeyError]; every other JSON value raises [TypeError]. *)
Definition getitem (obj : pyobj) (key : string) : result pyobj :=
  match obj with
  | PDict d =>
      match dict_get d key with
      | Some v => Ok v
      | None => Raise (KeyError key)
      end
  | _ => Raise TypeError
  end.

(** [has_path obj ks]: every subscript along [ks] succeeds. *)
Fixpoint has_path (obj : pyobj) (ks : list string) : bool :=
  match ks with
  | [] => true
  | k :: ks' =>
      match getitem obj k with
      | Ok v => has_path v ks'
      | Raise _ => false
      end
  end.

(* ================================================================== *)
(** ** pandas: timestamps and series *)

Inductive Timestamp : Type :=
| NaT
| Ts (ns : Z).

Definition NS_PER_SECOND : Z := 1000000000.
Definition NS_PER_DAY : Z := 86400 * NS_PER_SECOND.

(** [pd.Timedelta(days=n)], in nanoseconds. *)
Definition Timedelta_days (n : Z) : Z := n * NS_PER_DAY.

(** [t + delta] and [t - delta]; [NaT] is absorbing. *)
Definition ts_add (t : Timestamp) (delta : Z) : Timestamp :=
  match t with NaT => NaT | Ts ns => Ts (ns + delta) end.

Definition ts_sub (t : Timestamp) (delta : Z) : Timestamp :=
  match t with NaT => NaT | Ts ns => Ts (ns - delta) end.

(** [a - b] on timestamps: a timedelta in nanoseconds, [None] for [NaT]. *)
Definition ts_diff (a b : Timestamp) : option Z :=
  match a, b with
  | Ts x, Ts y => Some (x - y)
  | _, _ => None
  end.

(** [.dt.days]: the whole days of a timedelta (floor), [None] for [NaN]. *)
Definition dt_days (d : option Z) : option Z :=
  match d with
  | Some ns => Some (ns / NS_PER_DAY)
  | None => None
  end.

(** [a <= b]; every comparison with [NaT] is [False]. *)
Definition ts_leb (a b : Timestamp) : bool :=
  match a, b with
  | Ts x, Ts y => x <=? y
  | _, _ => false
  end.

Definition ts_min2 (a b : Timestamp) : Timestamp :=
  match a, b with
  | NaT, _ => b
  | _, NaT => a
  | Ts x, Ts y => Ts (Z.min x y)
  end.

Definition ts_max2 (a b : Timestamp) : Timestamp :=
  match a, b with
  | NaT, _ => b
  | _, NaT => a
  | Ts x, Ts y => Ts (Z.max x y)
  end.

(** [Series.min()] and [Series.max()] skip [NaT]; an empty or all-[NaT]
    series gives [NaT]. *)
Definition series_min (s : list Timestamp) : Timestamp := fold_right ts_min2 NaT s.
Definition series_max (s : list Timestamp) : Timestamp := fold_right ts_max2 NaT s.

(** A table cell that was never converted: a decoded JSON value, or
    [None] for the [NaN] that [pandas] puts where a record lacks the key. *)
Definition cell : Type := option pyobj.

(** One row of the table [fetch_data] returns. *)
Record Bar : Type := mkBar {
  time : Timestamp;
  close : cell;
  open : cell;
  high : cell;
  low : cell;
  volumeto : cell
}.

Definition DataFrame : Type := list Bar.

(** [series.iloc[-1]] *)
Definition iloc_last {A} (s : list A) : result A :=
  match rev s with
  | [] => Raise IndexError
  | x :: _ => Ok x
  end.

(* ================================================================== *)
(** ** The outside world: one HTTP endpoint *)

Record Request : Type := mkRequest {
  url : string;
  params : list (string * pyobj)
}.

(** What [requests.get] hands back when it does not raise.  [body] is
    [None] when the payload is not a JSON document. *)
Record Response : Type := mkResponse {
  status_code : Z;
  body : option pyobj
}.

Inductive HttpOutcome : Type :=
| Failed (e : exn)
| Responded (r : Response).

(** The server answers the [n]-th call of the run (counted from 0). *)
Definition Server : Type := nat -> Request -> HttpOutcome.

(** Computations that talk to the server and may raise: the requests
    issued so far are threaded through. *)
Definition M (A : Type) : Type := Server -> list Request -> list Request * result A.

Definition ret {A} (a : A) : M A := fun _ tr => (tr, Ok a).

Definition bind {A B} (m : M A) (k : A -> M B) : M B :=
  fun srv tr =>
    match m srv tr with
    | (tr', Ok a) => k a srv tr'
    | (tr', Raise e) => (tr', Raise e)
    end.

Definition lift {A} (r : result A) : M A := fun _ tr => (tr, r).

Declare Scope py_scope.
Delimit Scope py_scope with py.
Notation "x <- m ;; k" := (bind m (fun x => k))
  (at level 61, m at next level, right associativity) : py_scope.

(** [requests.get(url, params=params)] *)
Definition requests_get (u : string) (ps : list (string * pyobj)) : M Response :=
  fun srv tr =>
    let req := mkRequest u ps in
    match srv (List.length tr) req with
    | Failed e => (tr ++ [req], Raise e)
    | Responded r => (tr ++ [req], Ok r)
    end.

(** [response.json()] *)
Definition response_json (r : Response) : result pyobj :=
  match body r with
  | Some j => Ok j
  | None => Raise JSONDecodeError
  end.

Definition run {A} (m : M A) (srv : Server) : list Request * result A := m srv [].

Definition result_bind {A B} (r : result A) (k : A -> result B) : result B :=
  match r with
  | Ok a => k a
  | Raise e => Raise e
  end.

(** Apply [f] to every element, left to right; the first exception wins. *)
Fixpoint mapM {A B} (f : A -> result B) (l : list A) : result (list B) :=
  match l with
  | [] => Ok []
  | x :: l' =>
      result_bind (f x) (fun y =>
      result_bind (mapM f l') (fun ys => Ok (y :: ys)))
  end.

(* ================================================================== *)
(** ** Configuration (lines 12-14) *)

Definition MAX_ENCODER_LENGTH : Z := 365.
Definition MAX_PREDICTION_LENGTH : Z := 7.
Definition BATCH_SIZE : Z := 128.

(* ================================================================== *)
(** ** [fetch_data] (lines 16-23) *)

(** A row of the frame [pd.DataFrame] builds, before any conversion: the
    cell under each column name. *)
Definition RawRow : Type := string -> cell.

Fixpoint as_records (l : list pyobj) : option (list (list (string * pyobj))) :=
  match l with
  | [] => Some []
  | PDict d :: l' => option_map (cons d) (as_records l')
  | _ :: _ => None
  end.

(** The row of one record: each requested column holds the record's value
    under that key, [NaN] when the key is absent. *)
Definition record_row (columns : list string) (d : list (string * pyobj)) : RawRow :=
  fun c => if existsb (String.eqb c) columns then dict_get d c else None.

Definition url_histoday : string := "https://min-api.cryptocompare.com/data/v2/histoday".
Definition fetch_params : list (string * pyobj) :=
  [("fsym", PStr "ETH"); ("tsym", PStr "USD"); ("limit", PInt 1729)].
Definition fetch_columns : list string :=
  ["time"; "close"; "open"; "high"; "low"; "volumeto"].

Section Fetch.

(** Two corners of [pandas] are left open: what the [DataFrame]
    constructor makes of a payload that is not a list of records, and
    what [to_datetime] makes of a cell that is neither an integer nor
    missing.  Each may return a value or raise. *)
Variable DataFrame_other : pyobj -> list string -> result (list RawRow).
Variable to_datetime_other : pyobj -> result Timestamp.

(** [pd.DataFrame(data, columns=columns)] *)
Definition pd_DataFrame (data : pyobj) (columns : list string) : result (list RawRow) :=
  match data with
  | PList l =>
      match as_records l with
      | Some recs => Ok (map (record_row columns) recs)
      | None => DataFrame_other data columns
      end
  | _ => DataFrame_other data columns
  end.

(** [pd.to_datetime(., unit='s')] on one cell: an integer counts seconds
    since the epoch, a missing value becomes [NaT]. *)
Definition to_datetime_s (c : cell) : result Timestamp :=
  match c with
  | None => Ok NaT
  | Some PNone => Ok NaT
  | Some (PInt z) => Ok (Ts (z * NS_PER_SECOND))
  | Some o => to_datetime_other o
  end.

(** [df['time'] = pd.to_datetime(df['time'], unit='s')] *)
Definition convert_time (r : RawRow) : result Bar :=
  result_bind (to_datetime_s (r "time")) (fun t =>
  Ok (mkBar t (r "close") (r "open") (r "high") (r "low") (r "volumeto"))).

Definition fetch_data : M DataFrame :=
  (response <- requests_get url_histoday fetch_params ;;
   j <- lift (response_json response) ;;
   d <- lift (getitem j "Data") ;;
   data <- lift (getitem d "Data") ;;
   df <- lift (pd_DataFrame data fetch_columns) ;;
   lift (mapM convert_time df))%py.

End Fetch.

(* ================================================================== *)
(** ** Feature preparation (lines 56-58) *)

(** A row once [time_idx] and [group] have been added. *)
Record Row : Type := mkRow {
  bar : Bar;
  time_idx : option Z;
  group : string
}.

Definition row_time (r : Row) : Timestamp := time (bar r).

(** [df['time_idx'] = (df['time'] - df['time'].min()).dt.days] and
    [df['group'] = 'eth_usd'] *)
Definition add_features (df : DataFrame) : list Row :=
  let t0 := series_min (map time df) in
  map (fun b => mkRow b (dt_days (ts_diff (time b) t0)) "eth_usd") df.

(** [df["time"].max() - pd.Timedelta(days=MAX_PREDICTION_LENGTH)] *)
Definition training_cutoff (df : list Row) : Timestamp :=
  ts_sub (series_max (map row_time df)) (Timedelta_days MAX_PREDICTION_LENGTH).

(** [df[lambda x: x.time <= training_cutoff]] *)
Definition training_split (df : list Row) : list Row :=
  filter (fun x => ts_leb (row_time x) (training_cutoff df)) df.

(** The rows the training split leaves out. *)
Definition held_out (df : list Row) : list Row :=
  filter (fun x => negb (ts_leb (row_time x) (training_cutoff df))) df.

(* ================================================================== *)
(** ** The windowed datasets (lines 61-81) *)

Record GroupNormalizer : Type := mkGroupNormalizer {
  groups : list string
}.

(** The arguments a [TimeSeriesDataSet] is built from, with its data. *)
Record TimeSeriesDataSet : Type := mkTimeSeriesDataSet {
  data : list Row;
  time_idx_column : string;
  target : string;
  group_ids : list string;
  min_encoder_length : Z;
  max_encoder_length : Z;
  min_prediction_length : Z;
  max_prediction_length : Z;
  static_categoricals : list string;
  time_varying_known_reals : list string;
  time_varying_unknown_reals : list string;
  target_normalizer : GroupNormalizer;
  add_relative_time_idx : bool;
  add_target_scales : bool;
  add_encoder_length : bool;
  randomize_length : option (Q * Q);
  predict_mode : bool
}.

(** [training = TimeSeriesDataSet(df[lambda x: x.time <= training_cutoff], ...)];
    [randomize_length] and [predict_mode] keep the constructor's defaults. *)
Definition training (df : list Row) : TimeSeriesDataSet :=
  {| data := training_split df;
     time_idx_column := "time_idx";
     target := "close";
     group_ids := ["group"];
     min_encoder_length := MAX_ENCODER_LENGTH / 2;
     max_encoder_length := MAX_ENCODER_LENGTH;
     min_prediction_length := 1;
     max_prediction_length := MAX_PREDICTION_LENGTH;
     static_categoricals := ["group"];
     time_varying_known_reals := [];
     time_varying_unknown_reals := ["open"; "high"; "low"; "volumeto"; "close"];
     target_normalizer := mkGroupNormalizer ["group"];
     add_relative_time_idx := true;
     add_target_scales := true;
     add_encoder_length := true;
     randomize_length := None;
     predict_mode := false |}.

(** [TimeSeriesDataSet.from_dataset(dataset, data, predict=.., stop_randomization=..)]
    as [pytorch_forecasting] documents it: the parameters of [dataset] are
    reused on the new [data]; with [predict] the prediction length is pinned
    to its maximum and only the last window of each series is kept. *)
Definition from_dataset (dataset : TimeSeriesDataSet) (new_data : list Row)
    (predict stop_randomization : bool) : TimeSeriesDataSet :=
  {| data := new_data;
     time_idx_column := time_idx_column dataset;
     target := target dataset;
     group_ids := group_ids dataset;
     min_encoder_length := min_encoder_length dataset;
     max_encoder_length := max_encoder_length dataset;
     min_prediction_length :=
       if predict then max_prediction_length dataset else min_prediction_length dataset;
     max_prediction_length := max_prediction_length dataset;
     static_categoricals := static_categoricals dataset;
     time_varying_known_reals := time_varying_known_reals dataset;
     time_varying_unknown_reals := time_varying_unknown_reals dataset;
     target_normalizer := target_normalizer dataset;
     add_relative_time_idx := add_relative_time_idx dataset;
     add_target_scales := add_target_scales dataset;
     add_encoder_length := add_encoder_length dataset;
     randomize_length := if stop_randomization then None else randomize_length dataset;
     predict_mode := predict || predict_mode dataset |}.

(** [validation = TimeSeriesDataSet.from_dataset(training, df, predict=True,
    stop_randomization=True)] *)
Definition validation (df : list Row) : TimeSeriesDataSet :=
  from_dataset (training df) df true true.

(** *** The windows a dataset yields

    The index of a [TimeSeriesDataSet] over one series of [n] consecutive
    time steps, after the library's [_construct_index] and
    [calculate_decoder_length].  Positions count from the first step of the
    series.  A window is a start position and a sequence length; its
    decoder takes the last steps, its encoder the rest. *)

Definition zrange (lo hi : Z) : list Z :=
  map (fun i => lo + Z.of_nat i) (seq 0 (Z.to_nat (hi - lo))).

Definition min_sequence_length (ds : TimeSeriesDataSet) : Z :=
  min_prediction_length ds + min_encoder_length ds.

Definition max_sequence_length (ds : TimeSeriesDataSet) : Z :=
  max_prediction_length ds + max_encoder_length ds.

(** Every step starts a sequence that runs for [max_sequence_length] steps
    or to the end of the series. *)
Definition regular_sequences (ds : TimeSeriesDataSet) (n : Z) : list (Z * Z) :=
  map (fun s => (s, Z.min (max_sequence_length ds) (n - s))) (zrange 0 n).

(** Shorter sequences from the first step, so that some sequence ends on
    every step. *)
Definition shortened_sequences (ds : TimeSeriesDataSet) (n : Z) : list (Z * Z) :=
  map (fun e => (0, e + 1))
      (zrange (min_sequence_length ds - 1) (Z.min (max_sequence_length ds) n - 1)).

Definition long_enough (ds : TimeSeriesDataSet) (w : Z * Z) : bool :=
  let (s, len) := w in
  (min_sequence_length ds <=? len) && (min_prediction_length ds <=? len + s).

(** The longest sequence, the first of them on a tie ([idxmax]). *)
Fixpoint longest (ws : list (Z * Z)) : list (Z * Z) :=
  match ws with
  | [] => []
  | w :: ws' =>
      match longest ws' with
      | w' :: _ => if snd w' <=? snd w then [w] else [w']
      | [] => [w]
      end
  end.

Definition construct_index (ds : TimeSeriesDataSet) (n : Z) : list (Z * Z) :=
  let kept := filter (long_enough ds) (regular_sequences ds n ++ shortened_sequences ds n) in
  if predict_mode ds
  then longest (filter (fun w => n - fst w <=? max_sequence_length ds) kept)
  else kept.

Definition calculate_decoder_length (ds : TimeSeriesDataSet) (w : Z * Z) : Z :=
  let (s, len) := w in
  Z.min (Z.min (s + len) (max_prediction_length ds)) (len - min_encoder_length ds).

(** The (encoder length, decoder length) pairs of the dataset's windows. *)
Definition window_lengths (ds : TimeSeriesDataSet) (n : Z) : list (Z * Z) :=
  map (fun w => (snd w - calculate_decoder_length ds w, calculate_decoder_length ds w))
      (construct_index ds n).

(** [dataset.to_dataloader(train=.., batch_size=.., num_workers=..)] *)
Record DataLoader : Type := mkDataLoader {
  loader_dataset : TimeSeriesDataSet;
  train : bool;
  batch_size : Z;
  num_workers : Z
}.

Definition train_dataloader (df : list Row) : DataLoader :=
  mkDataLoader (training df) true BATCH_SIZE 0.

Definition val_dataloader (df : list Row) : DataLoader :=
  mkDataLoader (validation df) false BATCH_SIZE 0.

(* ================================================================== *)
(** ** The model and its training adapter (lines 27-52, 84-99) *)

(** [QuantileLoss(quantiles)] *)
Record QuantileLoss : Type := mkQuantileLoss {
  quantiles : list Q
}.

(** The arguments of [TemporalFusionTransformer.from_dataset]. *)
Record TemporalFusionTransformer : Type := mkTemporalFusionTransformer {
  source_dataset : TimeSeriesDataSet;
  hidden_size : Z;
  lstm_layers : Z;
  dropout : Q;
  output_size : Z;
  loss : QuantileLoss;
  learning_rate : Q;
  hidden_continuous_size : Z;
  attention_head_size : Z;
  tft_max_encoder_length : Z;
  reduce_on_plateau_patience : Z
}.

Definition tft (df : list Row) : TemporalFusionTransformer :=
  {| source_dataset := training df;
     hidden_size := 256;
     lstm_layers := 2;
     dropout := 3 # 10;
     output_size := 7;
     loss := mkQuantileLoss [1 # 10; 5 # 10; 9 # 10];
     learning_rate := 1 # 10000;
     hidden_continuous_size := 64;
     attention_head_size := 4;
     tft_max_encoder_length := MAX_ENCODER_LENGTH;
     reduce_on_plateau_patience := 4 |}.

(** [class LightningTFT(pl.LightningModule)]: [__init__] keeps the model
    and its loss. *)
Record LightningTFT : Type := mkLightningTFT {
  model : TemporalFusionTransformer;
  self_loss : QuantileLoss
}.

Definition LightningTFT_init (tft_model : TemporalFusionTransformer) : LightningTFT :=
  {| model := tft_model; self_loss := loss tft_model |}.

Record AdamW : Type := mkAdamW {
  lr : Q;
  weight_decay : Q
}.

Record CosineAnnealingLR : Type := mkCosineAnnealingLR {
  scheduled : AdamW;
  T_max : Z
}.

Record OptimizerConfig : Type := mkOptimizerConfig {
  optimizer : AdamW;
  lr_scheduler : CosineAnnealingLR;
  monitor : string
}.

(** [LightningTFT.configure_optimizers] *)
Definition configure_optimizers (self : LightningTFT) : OptimizerConfig :=
  let optimizer := mkAdamW (1 # 1000) (1 # 100000) in
  let scheduler := mkCosineAnnealingLR optimizer 10 in
  {| optimizer := optimizer; lr_scheduler := scheduler; monitor := "val_loss" |}.

Record EarlyStopping : Type := mkEarlyStopping {
  es_monitor : string;
  min_delta : Q;
  patience : Z;
  verbose : bool;
  mode : string
}.

Inductive Callback : Type :=
| LearningRateMonitor
| EarlyStoppingCallback (c : EarlyStopping).

Record Trainer : Type := mkTrainer {
  max_epochs : Z;
  accelerator : string;
  devices : string;
  gradient_clip_val : Q;
  callbacks : list Callback;
  log_every_n_steps : Z
}.

Definition early_stop_callback : EarlyStopping :=
  mkEarlyStopping "val_loss" (1 # 10000) 10 false "min".

Definition lr_logger : Callback := LearningRateMonitor.

Definition trainer : Trainer :=
  {| max_epochs := 100;
     accelerator := "auto";
     devices := "auto";
     gradient_clip_val := 1 # 10;
     callbacks := [lr_logger; EarlyStoppingCallback early_stop_callback];
     log_every_n_steps := 1 |}.

(* ================================================================== *)
(** ** Prediction and report (lines 116-124) *)

(** A two-dimensional [numpy] array of floats. *)
Record ndarray : Type := mkndarray {
  shape0 : nat;
  shape1 : nat;
  item : nat -> nat -> Q
}.

(** [a[0]] *)
Definition first_row (a : ndarray) : result (list Q) :=
  match shape0 a with
  | O => Raise IndexError
  | S _ => Ok (map (item a 0) (seq 0 (shape1 a)))
  end.

(** [df['time'].max()] *)
Definition last_known_date (df : list Row) : Timestamp :=
  series_max (map row_time df).

(** [[last_known_date + pd.Timedelta(days=i+1) for i in range(predicted_prices.shape[1])]] *)
Definition future_dates (df : list Row) (predicted_prices : ndarray) : list Timestamp :=
  map (fun i => ts_add (last_known_date df) (Timedelta_days (Z.of_nat i + 1)))
      (seq 0 (shape1 predicted_prices)).

(** [df['close'].iloc[-1]] *)
Definition last_known_price (df : list Row) : result cell :=
  iloc_last (map (fun r => close (bar r)) df).

(** What the run shows: the two printed blocks, then the plot. *)
Inductive Output : Type :=
| PrintLastKnownPrice (price : cell)
| PrintPredictions (prediction_df : list (Timestamp * Q))
| ShowPlot (historical : list (Timestamp * cell)) (forecast : list (Timestamp * Q)).

Section Script.

(** The open corners of [pandas] (see [fetch_data]) and the training
    framework: building the datasets and the model, [trainer.fit] and
    [model.predict] taken together, which either hand back the point
    forecasts or raise.  The trainer asks the module it is given for its
    optimizers. *)
Variable DataFrame_other : pyobj -> list string -> result (list RawRow).
Variable to_datetime_other : pyobj -> result Timestamp.
Variable fit_then_predict :
  Trainer -> LightningTFT -> OptimizerConfig -> DataLoader -> DataLoader -> result ndarray.

Definition trainer_fit_predict (t : Trainer) (module : LightningTFT)
    (train_dataloaders val_dataloaders : DataLoader) : result ndarray :=
  fit_then_predict t module (configure_optimizers module) train_dataloaders val_dataloaders.

(** The module-level statements, in order. *)
Definition script : M (list Output) :=
  (df0 <- fetch_data DataFrame_other to_datetime_other ;;
   let df := add_features df0 in
   let lightning_tft := LightningTFT_init (tft df) in
   predicted_prices <-
     lift (trainer_fit_predict trainer lightning_tft (train_dataloader df) (val_dataloader df)) ;;
   predicted_row <- lift (first_row predicted_prices) ;;
   let prediction_df := combine (future_dates df predicted_prices) predicted_row in
   price <- lift (last_known_price df) ;;
   ret [PrintLastKnownPrice price;
        PrintPredictions prediction_df;
        ShowPlot (map (fun r => (row_time r, close (bar r))) df) prediction_df])%py.

End Script.

(* ================================================================== *)
(** ** Orderings used in the statements *)

(** [a <= b] on timestamps that are both present. *)
Definition ts_le (a b : Timestamp) : Prop := ts_leb a b = true.

(** [a < b] on timestamps that are both present. *)
Definition ts_lt (a b : Timestamp) : Prop :=
  match a, b with
  | Ts x, Ts y => x < y
  | _, _ => False
  end.

(** [a <= b] on day indices that are both numbers. *)
Definition idx_le (a b : option Z) : Prop :=
  match a, b with
  | Some x, Some y => x <= y
  | _, _ => False
  end.

(** The number of steps of the series a dataset holds, when its rows are
    one gap-free daily series (the constructor refuses gaps unless
    [allow_missing_timesteps] is set, which the script leaves off). *)
Definition steps (ds : TimeSeriesDataSet) : Z := Z.of_nat (List.length (data ds)).

Definition windows (ds : TimeSeriesDataSet) : list (Z * Z) := window_lengths ds (steps ds).

(** The request [fetch_data] is expected to send. *)
Definition fetch_request : Request := mkRequest url_histoday fetch_params.

(** The table of the records [recs], column by column as line 21 names
    them, with [time] read as seconds since the epoch. *)
Definition bar_of_record (rec : list (string * pyobj)) : Bar :=
  {| time := match dict_get rec "time" with
             | Some (PInt z) => Ts (z * NS_PER_SECOND)
             | _ => NaT
             end;
     close := dict_get rec "close";
     open := dict_get rec "open";
     high := dict_get rec "high";
     low := dict_get rec "low";
     volumeto := dict_get rec "volumeto" |}.

Definition int_time (rec : list (string * pyobj)) : Prop :=
  exists z, dict_get rec "time" = Some (PInt z).

(** A daily bar for examples: day [n] after the epoch, closing at [c]. *)
Definition daily_bar (n : Z) (c : Z) : Bar :=
  mkBar (Ts (n * NS_PER_DAY)) (Some (PInt c)) None None None None.

(** [n] consecutive daily bars from the epoch. *)
Definition daily_table (n : Z) : DataFrame := map (fun d => daily_bar d (100 + d)) (zrange 0 n).

(** The day index as C2 states it: every row gets the whole days since the
    minimum timestamp, a non-negative integer, and the column never
    decreases from one row to the next. *)
Definition time_idx_as_stated (df0 : DataFrame) : Prop :=
  (forall r t, In r (add_features df0) -> row_time r = Ts t ->
     exists t0, series_min (map time df0) = Ts t0
                /\ time_idx r = Some ((t - t0) / NS_PER_DAY)
                /\ 0 <= (t - t0) / NS_PER_DAY)
  /\ StronglySorted idx_le (map time_idx (add_features df0)).

(** The column names as C6 lists them. *)
Definition columns_as_stated : list string :=
  ["time"; "close"; "open"; "high"; "low"; "volume"].

(** One bar as the endpoint sends it. *)
Definition api_record : list (string * pyobj) :=
  [("time", PInt 1700006400);
   ("high", PFloat (20655 # 10));
   ("low", PFloat (19731 # 10));
   ("open", PFloat (19802 # 10));
   ("volumefrom", PFloat (4125 # 1));
   ("volumeto", PFloat (8300 # 1));
   ("close", PFloat (20597 # 10));
   ("conversionType", PStr "direct")].

(** A server that answers every call with a one-bar history. *)
Definition api_server : Server :=
  fun _ _ =>
    Responded (mkResponse 200
      (Some (PDict [("Response", PStr "Success");
                    ("Data", PDict [("Aggregated", PBool false);
                                    ("Data", PList [PDict api_record])])]))).

(** A server that answers with the endpoint's error document, which has
    an empty [Data]. *)
Definition error_server : Server :=
  fun _ _ =>
    Responded (mkResponse 200
      (Some (PDict [("Response", PStr "Error"); ("Data", PDict [])]))).

(** A server that cannot be reached. *)
Definition down_server : Server := fun _ _ => Failed ConnectionError.

(** Stand-ins for the parts left open, for the examples. *)
Definition no_frame : pyobj -> list string -> result (list RawRow) :=
  fun _ _ => Raise ValueError.
Definition no_datetime : pyobj -> result Timestamp := fun _ => Raise ValueError.
Definition flat_forecast :
  Trainer -> LightningTFT -> OptimizerConfig -> DataLoader -> DataLoader -> result ndarray :=
  fun _ _ _ _ _ => Ok (mkndarray 1 7 (fun _ _ => 2000 # 1)).

(* ================================================================== *)
(** ** The training and validation steps (lines 33-47) *)

Section Steps.

(** Tensors, the input dictionary [x] and the target [y] of a batch, and
    the two calls into the library: the model's forward pass and the loss. *)
Variables Inputs Target Tensor : Type.
Variable decoder_cont_shape0 : Inputs -> Z.
Variable model_prediction : TemporalFusionTransformer -> Inputs -> Tensor.
Variable apply_loss : QuantileLoss -> Tensor -> Target -> Tensor.

(** One call of [self.log(name, value, batch_size=..)]. *)
Record Logged : Type := mkLogged {
  log_name : string;
  log_value : Tensor;
  log_batch_size : Z
}.

(** [LightningTFT.validation_step]: the returned loss and what it logs. *)
Definition validation_step (self : LightningTFT) (batch : Inputs * Target)
    (batch_idx : Z) : Tensor * list Logged :=
  let (x, y) := batch in
  let y_hat := model_prediction (model self) x in
  let loss := apply_loss (self_loss self) y_hat y in
  (loss, [mkLogged "val_loss" loss (decoder_cont_shape0 x)]).

(** [LightningTFT.training_step] *)
Definition training_step (self : LightningTFT) (batch : Inputs * Target)
    (batch_idx : Z) : Tensor * list Logged :=
  let (x, y) := batch in
  let y_hat := model_prediction (model self) x in
  let loss := apply_loss (self_loss self) y_hat y in
  (loss, [mkLogged "train_loss" loss (decoder_cont_shape0 x)]).

End Steps.

(* ================================================================== *)
(** ** Further notions used in the statements *)

(** The server's answer to the request is a JSON document whose
    [Data.Data] is the list of the records [recs]. *)
Definition answers (srv : Server) (recs : list (list (string * pyobj))) : Prop :=
  exists r j d l,
    srv 0%nat fetch_request = Responded r
    /\ body r = Some j
    /\ getitem j "Data" = Ok d
    /\ getitem d "Data" = Ok (PList l)
    /\ as_records l = Some recs.

(** The record gives [time] as an integer, as [null], or not at all. *)
Definition time_int_or_missing (rec : list (string * pyobj)) : Prop :=
  dict_get rec "time" = None \/ dict_get rec "time" = Some PNone \/ int_time rec.

Definition is_dict (o : pyobj) : bool :=
  match o with PDict _ => true | _ => false end.

(** The integer the record carries under [time] (0 when it has none). *)
Definition unix_time (rec : list (string * pyobj)) : Z :=
  match dict_get rec "time" with
  | Some (PInt z) => z
  | _ => 0
  end.

(** The same bar [delta] nanoseconds later. *)
Definition shift_bar (delta : Z) (b : Bar) : Bar :=
  mkBar (ts_add (time b) delta) (close b) (open b) (high b) (low b) (volumeto b).

(** The timestamps of [n] consecutive days starting at [t0]. *)
Definition daily_times (t0 n : Z) : list Timestamp :=
  map (fun i => Ts (t0 + i * NS_PER_DAY)) (zrange 0 n).

(** A one-bar answer with the HTTP status of a server error. *)
Definition api_server_500 : Server :=
  fun _ _ =>
    Responded (mkResponse 500
      (Some (PDict [("Response", PStr "Success");
                    ("Data", PDict [("Aggregated", PBool false);
                                    ("Data", PList [PDict api_record])])]))).

(** A server that answers with the given records. *)
Definition records_server (recs : list (list (string * pyobj))) : Server :=
  fun _ _ =>
    Responded (mkResponse 200
      (Some (PDict [("Data", PDict [("Data", PList (map PDict recs))])]))).

(** A framework that fails, and one that returns an empty forecast. *)
Definition failing_framework :
  Trainer -> LightningTFT -> OptimizerConfig -> DataLoader -> DataLoader -> result ndarray :=
  fun _ _ _ _ _ => Raise (LibraryError "training diverged").
Definition empty_forecast :
  Trainer -> LightningTFT -> OptimizerConfig -> DataLoader -> DataLoader -> result ndarray :=
  fun _ _ _ _ _ => Ok (mkndarray 0 7 (fun _ _ => 0%Q)).

(** What [model.predict] returns for a data loader, as the library
    documents it: one row per window of the loader's dataset, as wide as
    the decoder of those windows. *)
Definition forecast_shaped_by (loader : DataLoader) (predicted_prices : ndarray) : Prop :=
  shape0 predicted_prices = List.length (windows (loader_dataset loader))
  /\ forall e d, In (e, d) (windows (loader_dataset loader)) ->
                 Z.of_nat (shape1 predicted_prices) = d.

(** The record of day [d] after the epoch, closing at [100 + d]. *)
Definition day_record (d : Z) : list (string * pyobj) :=
  [("time", PInt (d * 86400)); ("close", PInt (100 + d))].

(** A server that answers with [n] consecutive daily records. *)
Definition daily_server (n : Z) : Server :=
  records_server (map day_record (zrange 0 n)).

(* ================================================================== *)
(** * Properties *)

(** ** Series minimum and maximum *)

Lemma series_max_cases (l : list Timestamp) :
  (series_max l = NaT /\ forall t, In t l -> t = NaT) \/
  (exists m, series_max l = Ts m /\ In (Ts m) l /\ forall x, In (Ts x) l -> x <= m).
Proof.
  induction l as [|a l IH]; simpl.
  - left. split; [reflexivity | intros t []].
  - destruct a as [|a].
    + destruct IH as [[E H]|(m & E & Hin & Hub)].
      * left. split; [exact E|]. intros t [<-|Ht]; [reflexivity | now apply H].
      * right. exists m. repeat split; [exact E | now right |].
        intros x [Hx|Hx]; [discriminate | now apply Hub].
    + right. destruct IH as [[E H]|(m & E & Hin & Hub)]; fold (series_max l); rewrite E; simpl.
      * exists a. repeat split; [now left|].
        intros x [Hx|Hx]; [injection Hx as ->; lia | apply H in Hx; discriminate].
      * exists (Z.max a m). repeat split.
        -- destruct (Z.max_spec a m) as [[_ ->]|[_ ->]]; [now right | now left].
        -- intros x [Hx|Hx]; [injection Hx as ->; lia | apply Hub in Hx; lia].
Qed.

Lemma series_min_cases (l : list Timestamp) :
  (series_min l = NaT /\ forall t, In t l -> t = NaT) \/
  (exists m, series_min l = Ts m /\ In (Ts m) l /\ forall x, In (Ts x) l -> m <= x).
Proof.
  induction l as [|a l IH]; simpl.
  - left. split; [reflexivity | intros t []].
  - destruct a as [|a].
    + destruct IH as [[E H]|(m & E & Hin & Hlb)].
      * left. split; [exact E|]. intros t [<-|Ht]; [reflexivity | now apply H].
      * right. exists m. repeat split; [exact E | now right |].
        intros x [Hx|Hx]; [discriminate | now apply Hlb].
    + right. destruct IH as [[E H]|(m & E & Hin & Hlb)]; fold (series_min l); rewrite E; simpl.
      * exists a. repeat split; [now left|].
        intros x [Hx|Hx]; [injection Hx as ->; lia | apply H in Hx; discriminate].
      * exists (Z.min a m). repeat split.
        -- destruct (Z.min_spec a m) as [[_ ->]|[_ ->]]; [now left | now right].
        -- intros x [Hx|Hx]; [injection Hx as ->; lia | apply Hlb in Hx; lia].
Qed.

Lemma add_features_bars (df0 : DataFrame) : map bar (add_features df0) = df0.
Proof.
  unfold add_features. rewrite map_map. simpl. apply map_id.
Qed.

Lemma add_features_times (df0 : DataFrame) :
  map row_time (add_features df0) = map time df0.
Proof.
  unfold row_time. rewrite <- (map_map bar time). now rewrite add_features_bars.
Qed.

Lemma NS_PER_DAY_pos : 0 < NS_PER_DAY.
Proof. reflexivity. Qed.

(** ** The training cutoff and the split *)

Lemma training_cutoff_value (df0 : DataFrame) :
  training_cutoff (add_features df0) =
  ts_sub (series_max (map time df0)) (MAX_PREDICTION_LENGTH * NS_PER_DAY).
Proof.
  unfold training_cutoff. now rewrite add_features_times.
Qed.

Lemma split_partition (df : list Row) (r : Row) :
  In r df ->
  (In r (training_split df) /\ ~ In r (held_out df)) \/
  (~ In r (training_split df) /\ In r (held_out df)).
Proof.
  intros Hin. unfold training_split, held_out.
  destruct (ts_leb (row_time r) (training_cutoff df)) eqn:E.
  - left. split.
    + apply filter_In. now split.
    + intros H. apply filter_In in H. destruct H as [_ H]. rewrite E in H. discriminate.
  - right. split.
    + intros H. apply filter_In in H. destruct H as [_ H]. congruence.
    + apply filter_In. split; [exact Hin | now rewrite E].
Qed.

(** C1.  For every fetched table: [training_cutoff] is the maximum
    timestamp of the table minus 7 days (the maximum is attained by a row
    and bounds every row); the data handed to the training dataset is the
    table filtered, in order, by [time <= training_cutoff]; every other row
    is held out, and a held-out row with a timestamp lies in the last 7
    days; the validation dataset and its loader are built over all rows. *)
Theorem training_cutoff_and_split (df0 : DataFrame) :
  let df := add_features df0 in
  training_cutoff df = ts_sub (series_max (map time df0)) (7 * NS_PER_DAY)
  /\ ((series_max (map time df0) = NaT /\ training_cutoff df = NaT) \/
      (exists m, series_max (map time df0) = Ts m
                 /\ (exists b, In b df0 /\ time b = Ts m)
                 /\ (forall b t, In b df0 -> time b = Ts t -> t <= m)
                 /\ training_cutoff df = Ts (m - 7 * NS_PER_DAY)))
  /\ data (training df) = filter (fun x => ts_leb (row_time x) (training_cutoff df)) df
  /\ (forall r, In r (data (training df)) <->
                In r df /\ ts_le (row_time r) (training_cutoff df))
  /\ (forall r, In r df ->
        (In r (data (training df)) /\ ~ In r (held_out df)) \/
        (~ In r (data (training df)) /\ In r (held_out df)))
  /\ (forall r t, In r (held_out df) -> row_time r = Ts t ->
        exists m, series_max (map time df0) = Ts m /\ m - 7 * NS_PER_DAY < t <= m)
  /\ data (validation df) = df
  /\ loader_dataset (val_dataloader df) = validation df.
Proof.
  intros df.
  assert (Hcut : training_cutoff df = ts_sub (series_max (map time df0)) (7 * NS_PER_DAY))
    by apply training_cutoff_value.
  split; [exact Hcut|]. split.
  { destruct (series_max_cases (map time df0)) as [[E _]|(m & E & Hin & Hub)].
    - left. split; [exact E|]. rewrite Hcut, E. reflexivity.
    - right. exists m. repeat split.
      + exact E.
      + apply in_map_iff in Hin. destruct Hin as (b & Hb & Hin). now exists b.
      + intros b t Hb Ht. apply Hub. rewrite <- Ht. now apply in_map.
      + rewrite Hcut, E. reflexivity. }
  split; [reflexivity|]. split.
  { intros r. simpl. unfold training_split, ts_le. rewrite filter_In. reflexivity. }
  split; [intros r; apply split_partition|]. split; [|split; reflexivity].
  intros r t Hr Ht. unfold held_out in Hr. apply filter_In in Hr. destruct Hr as [Hin Hr].
  assert (Hmem : In (Ts t) (map time df0)).
  { rewrite <- add_features_times, <- Ht. now apply in_map. }
  destruct (series_max_cases (map time df0)) as [[_ H]|(m & E & _ & Hub)].
  - apply H in Hmem. discriminate.
  - exists m. split; [exact E|]. split; [|now apply Hub].
    rewrite Hcut, E, Ht in Hr. simpl in Hr.
    apply negb_true_iff, Z.leb_gt in Hr. exact Hr.
Qed.

(** Ten daily bars: the cutoff is day 2, day 2 is a training row and
    day 5 is held out, inside the last 7 days. *)
Lemma training_cutoff_and_split_witness :
  In (mkRow (daily_bar 2 102) (Some 2) "eth_usd")
     (data (training (add_features (daily_table 10))))
  /\ exists m, series_max (map time (daily_table 10)) = Ts m
               /\ m - 7 * NS_PER_DAY < 5 * NS_PER_DAY <= m.
Proof.
  destruct (training_cutoff_and_split (daily_table 10))
    as (_ & _ & _ & Hmem & _ & Hheld & _).
  split.
  - apply Hmem. split.
    + vm_compute. right. right. left. reflexivity.
    + reflexivity.
  - apply (Hheld (mkRow (daily_bar 5 105) (Some 5) "eth_usd")).
    + vm_compute. right. right. left. reflexivity.
    + reflexivity.
Defined.

(** ** The day index *)

#[local] Instance ts_le_trans : Transitive ts_le.
Proof.
  intros [|a] [|b] [|c]; unfold ts_le; simpl; try discriminate.
  rewrite !Z.leb_le. lia.
Qed.

Lemma idx_le_of_ts_le (t0 a b : Timestamp) :
  ts_le a b -> t0 <> NaT ->
  idx_le (dt_days (ts_diff a t0)) (dt_days (ts_diff b t0)).
Proof.
  destruct a as [|a], b as [|b]; unfold ts_le; simpl; try discriminate.
  destruct t0 as [|m]; [congruence|]. intros H _. simpl.
  apply Z.leb_le in H. apply Z.div_le_mono; [apply NS_PER_DAY_pos | lia].
Qed.

Lemma strongly_sorted_time_idx (t0 : Timestamp) (l : list Bar) :
  (l <> [] -> t0 <> NaT) ->
  StronglySorted ts_le (map time l) ->
  StronglySorted idx_le (map (fun b => dt_days (ts_diff (time b) t0)) l).
Proof.
  intros Ht0 H. induction l as [|a l IH]; simpl; [constructor|].
  simpl in H. apply StronglySorted_inv in H. destruct H as [Hs Hall].
  assert (Hne : t0 <> NaT) by (apply Ht0; discriminate).
  constructor.
  - apply IH; [intros _; exact Hne | exact Hs].
  - rewrite Forall_map in Hall |- *. simpl.
    eapply Forall_impl; [|exact Hall].
    intros b Hb. now apply idx_le_of_ts_le.
Qed.

Lemma series_min_present (l : list Timestamp) (t : Z) :
  In (Ts t) l -> exists t0, series_min l = Ts t0 /\ t0 <= t.
Proof.
  intros Hin. destruct (series_min_cases l) as [[_ H]|(m & E & _ & Hlb)].
  - apply H in Hin. discriminate.
  - exists m. split; [exact E | now apply Hlb].
Qed.

(** Rows in ascending time order get day indices in ascending order. *)
Lemma sorted_time_idx (df0 : DataFrame) :
  Sorted ts_le (map time df0) ->
  StronglySorted idx_le (map time_idx (add_features df0)).
Proof.
  intros Hs. apply Sorted_StronglySorted in Hs; [|exact ts_le_trans].
  unfold add_features. rewrite map_map. simpl.
  destruct df0 as [|a [|b l]].
  - constructor.
  - (* a single row: nothing to order *)
    simpl. constructor; constructor.
  - apply strongly_sorted_time_idx; [|exact Hs]. intros _.
    simpl in Hs. apply StronglySorted_inv in Hs. destruct Hs as [_ Hall].
    apply Forall_inv in Hall. unfold ts_le in Hall.
    destruct (time a) as [|t] eqn:Ea; [discriminate|].
    destruct (series_min_present (map time (a :: b :: l)) t) as (t0 & E & _).
    + left. exact Ea.
    + rewrite E. discriminate.
Qed.

(** C2, as stated, fails on a table the API may return: two bars with the
    later day first.  Their day indices are 1 then 0. *)
Lemma time_idx_not_monotone_counterexample :
  map time_idx (add_features [daily_bar 1 101; daily_bar 0 100]) = [Some 1; Some 0]
  /\ ~ time_idx_as_stated [daily_bar 1 101; daily_bar 0 100].
Proof.
  assert (E : map time_idx (add_features [daily_bar 1 101; daily_bar 0 100])
               = [Some 1; Some 0]) by (vm_compute; reflexivity).
  split; [exact E|].
  intros [_ H]. rewrite E in H.
  apply StronglySorted_inv in H. destruct H as [_ H].
  apply Forall_inv in H. simpl in H. lia.
Qed.

(** C2 (amended).  For any fetched table, a row with a timestamp gets as
    [time_idx] the whole number of days between its timestamp and the
    minimum timestamp of the table, a non-negative integer (a row without
    one gets [NaN]); the rows keep their order, and when they arrive in
    ascending time order [time_idx] never decreases along the rows. *)
Theorem time_idx_days_since_min (df0 : DataFrame) :
  let df := add_features df0 in
  map bar df = df0
  /\ (forall r t, In r df -> row_time r = Ts t ->
        exists t0, series_min (map time df0) = Ts t0
                   /\ t0 <= t
                   /\ time_idx r = Some ((t - t0) / NS_PER_DAY)
                   /\ 0 <= (t - t0) / NS_PER_DAY)
  /\ (forall r, In r df -> row_time r = NaT -> time_idx r = None)
  /\ (Sorted ts_le (map time df0) -> StronglySorted idx_le (map time_idx df)).
Proof.
  intros df. split; [apply add_features_bars|]. split; [|split].
  - intros r t Hin Ht.
    assert (Hmem : In (Ts t) (map time df0)).
    { rewrite <- add_features_times, <- Ht. now apply in_map. }
    destruct (series_min_present _ _ Hmem) as (t0 & E & Hle).
    exists t0. split; [exact E|]. split; [exact Hle|].
    unfold df, add_features in Hin. apply in_map_iff in Hin.
    destruct Hin as (b & <- & _). unfold row_time in Ht. simpl in Ht |- *.
    rewrite Ht, E. simpl. split; [reflexivity|].
    apply Z.div_pos; [lia | apply NS_PER_DAY_pos].
  - intros r Hin Ht. unfold df, add_features in Hin. apply in_map_iff in Hin.
    destruct Hin as (b & <- & _). unfold row_time in Ht. simpl in Ht |- *.
    now rewrite Ht.
  - apply sorted_time_idx.
Qed.

(** Three daily bars in order: day 2 has index 2, and the column is
    ascending. *)
Lemma time_idx_days_since_min_witness :
  (exists t0, series_min (map time (daily_table 3)) = Ts t0
              /\ t0 <= 2 * NS_PER_DAY
              /\ time_idx (mkRow (daily_bar 2 102) (Some 2) "eth_usd")
                 = Some ((2 * NS_PER_DAY - t0) / NS_PER_DAY)
              /\ 0 <= (2 * NS_PER_DAY - t0) / NS_PER_DAY)
  /\ StronglySorted idx_le (map time_idx (add_features (daily_table 3))).
Proof.
  destruct (time_idx_days_since_min (daily_table 3)) as (_ & Hidx & _ & Hsorted).
  split.
  - apply (Hidx (mkRow (daily_bar 2 102) (Some 2) "eth_usd")).
    + vm_compute. right. right. left. reflexivity.
    + reflexivity.
  - apply Hsorted. vm_compute.
    repeat first [apply Sorted_nil | apply Sorted_cons | apply HdRel_nil | apply HdRel_cons];
      reflexivity.
Defined.

(** ** The future dates *)

Lemma future_dates_length (df : list Row) (predicted_prices : ndarray) :
  List.length (future_dates df predicted_prices) = shape1 predicted_prices.
Proof.
  unfold future_dates. now rewrite length_map, length_seq.
Qed.

Lemma first_row_length (a : ndarray) (row : list Q) :
  first_row a = Ok row -> List.length row = shape1 a.
Proof.
  unfold first_row. destruct (shape0 a); [discriminate|].
  intros H. injection H as <-. now rewrite length_map, length_seq.
Qed.

(** The [i]-th future date is [i + 1] days after the last known date. *)
Lemma future_dates_nth (df : list Row) (predicted_prices : ndarray) (i : nat) :
  (i < shape1 predicted_prices)%nat ->
  nth_error (future_dates df predicted_prices) i =
  Some (ts_add (last_known_date df) ((Z.of_nat i + 1) * NS_PER_DAY)).
Proof.
  intros Hi. unfold future_dates.
  rewrite nth_error_map, nth_error_seq.
  apply Nat.ltb_lt in Hi. rewrite Hi. reflexivity.
Qed.

(** ** The optimizer of the adapter *)

(** C4.  Whatever model it wraps, [configure_optimizers] returns AdamW
    with learning rate 1e-3 and weight decay 1e-5, a cosine-annealing
    schedule over that optimizer with [T_max = 10], monitored on
    "val_loss".  The trainer is given the adapter, so these are the
    optimizers of the run: the learning rate in force is 1e-3, not the
    1e-4 the model was configured with. *)
Theorem configure_optimizers_overrides_learning_rate
    (tft_model : TemporalFusionTransformer) (df : list Row)
    (fit_then_predict :
       Trainer -> LightningTFT -> OptimizerConfig -> DataLoader -> DataLoader -> result ndarray) :
  let cfg := configure_optimizers (LightningTFT_init tft_model) in
  optimizer cfg = mkAdamW (1 # 1000) (1 # 100000)
  /\ lr_scheduler cfg = mkCosineAnnealingLR (optimizer cfg) 10
  /\ monitor cfg = "val_loss"
  /\ trainer_fit_predict fit_then_predict trainer (LightningTFT_init (tft df))
       (train_dataloader df) (val_dataloader df)
     = fit_then_predict trainer (LightningTFT_init (tft df))
         (mkOptimizerConfig (mkAdamW (1 # 1000) (1 # 100000))
            (mkCosineAnnealingLR (mkAdamW (1 # 1000) (1 # 100000)) 10) "val_loss")
         (train_dataloader df) (val_dataloader df)
  /\ learning_rate (model (LightningTFT_init (tft df))) = 1 # 10000
  /\ lr (optimizer (configure_optimizers (LightningTFT_init (tft df)))) = 1 # 1000
  /\ ~ (lr (optimizer (configure_optimizers (LightningTFT_init (tft df))))
        == learning_rate (model (LightningTFT_init (tft df))))%Q.
Proof.
  repeat split. simpl. intros H. discriminate H.
Qed.

(** ** Encoder lengths *)

(** C8.  The training dataset's minimum encoder length is its maximum
    halved by floor division: 365 // 2 = 182. *)
Theorem min_encoder_length_is_half (df : list Row) :
  max_encoder_length (training df) = 365
  /\ min_encoder_length (training df) = max_encoder_length (training df) / 2
  /\ min_encoder_length (training df) = 182.
Proof.
  repeat split.
Qed.

(** ** Window lengths *)

Lemma in_zrange (lo hi x : Z) : In x (zrange lo hi) <-> lo <= x < hi.
Proof.
  unfold zrange. rewrite in_map_iff. split.
  - intros (i & <- & Hi). apply in_seq in Hi. lia.
  - intros H. exists (Z.to_nat (x - lo)). split; [lia|]. apply in_seq. lia.
Qed.

Lemma longest_incl (ws : list (Z * Z)) (w : Z * Z) : In w (longest ws) -> In w ws.
Proof.
  induction ws as [|a ws IH]; simpl; [tauto|].
  destruct (longest ws) as [|w' rest].
  - intros [<-|[]]. now left.
  - destruct (snd w' <=? snd a).
    + intros [<-|[]]. now left.
    + intros [<-|[]]. right. apply IH. now left.
Qed.

(** Every sequence of the index starts inside the series and has an
    admissible length. *)
Lemma construct_index_bounds (ds : TimeSeriesDataSet) (n s len : Z) :
  In (s, len) (construct_index ds n) ->
  0 <= s /\ min_sequence_length ds <= len <= max_sequence_length ds.
Proof.
  intros H.
  assert (Hkept : In (s, len)
            (filter (long_enough ds) (regular_sequences ds n ++ shortened_sequences ds n))).
  { unfold construct_index in H. destruct (predict_mode ds); [|exact H].
    apply longest_incl in H. apply filter_In in H. tauto. }
  apply filter_In in Hkept. destruct Hkept as [Hin Hlong].
  unfold long_enough in Hlong. apply andb_true_iff in Hlong.
  destruct Hlong as [Hlong _]. apply Z.leb_le in Hlong.
  apply in_app_or in Hin. destruct Hin as [Hin|Hin].
  - unfold regular_sequences in Hin. apply in_map_iff in Hin.
    destruct Hin as (s' & E & Hs'). injection E as -> <-.
    apply in_zrange in Hs'. lia.
  - unfold shortened_sequences in Hin. apply in_map_iff in Hin.
    destruct Hin as (e & E & He). injection E as <- <-.
    apply in_zrange in He. lia.
Qed.

(** The windows of any dataset respect its four length parameters. *)
Lemma window_lengths_bounds (ds : TimeSeriesDataSet) (n e d : Z) :
  0 <= min_encoder_length ds <= max_encoder_length ds ->
  min_prediction_length ds <= max_prediction_length ds ->
  In (e, d) (window_lengths ds n) ->
  min_encoder_length ds <= e <= max_encoder_length ds
  /\ min_prediction_length ds <= d <= max_prediction_length ds.
Proof.
  intros Henc Hpred H. unfold window_lengths in H. apply in_map_iff in H.
  destruct H as ([s len] & E & Hin). apply construct_index_bounds in Hin.
  unfold min_sequence_length, max_sequence_length in Hin.
  unfold calculate_decoder_length in E. simpl in E. injection E as <- <-. lia.
Qed.

(** The validation dataset, built with [predict=True], always decodes the
    full horizon: this is where the forecast gets its 7 columns. *)
Lemma validation_window_lengths (df : list Row) (n e d : Z) :
  In (e, d) (window_lengths (validation df) n) ->
  182 <= e <= 365 /\ d = MAX_PREDICTION_LENGTH.
Proof.
  assert (E1 : min_encoder_length (validation df) = 182) by reflexivity.
  assert (E2 : max_encoder_length (validation df) = 365) by reflexivity.
  assert (E3 : min_prediction_length (validation df) = 7) by reflexivity.
  assert (E4 : max_prediction_length (validation df) = 7) by reflexivity.
  intros H. apply window_lengths_bounds in H; rewrite ?E1, ?E2, ?E3, ?E4 in *;
    unfold MAX_PREDICTION_LENGTH; lia.
Qed.

(** C5, as stated, fails on a table of 190 daily bars: the training split
    has 183 rows, and its only window has 182 encoder steps and a single
    target. *)
Lemma training_decoder_length_counterexample :
  windows (training (add_features (daily_table 190))) = [(182, 1)]
  /\ ~ (forall e d, In (e, d) (windows (training (add_features (daily_table 190)))) ->
          182 <= e <= 365 /\ d = MAX_PREDICTION_LENGTH).
Proof.
  assert (E : windows (training (add_features (daily_table 190))) = [(182, 1)])
    by (vm_compute; reflexivity).
  split; [exact E|]. intros H.
  destruct (H 182 1) as [_ Hd]; [rewrite E; now left | discriminate Hd].
Qed.

(** C5 (amended).  The training dataset is configured with prediction
    lengths from 1 to 7; every window it yields has an encoder length in
    [182, 365] and a decoder length in [1, 7]. *)
Theorem training_window_lengths (df : list Row) (e d : Z) :
  In (e, d) (windows (training df)) ->
  min_prediction_length (training df) = 1
  /\ max_prediction_length (training df) = MAX_PREDICTION_LENGTH
  /\ 182 <= e <= 365
  /\ 1 <= d <= 7.
Proof.
  assert (E1 : min_encoder_length (training df) = 182) by reflexivity.
  assert (E2 : max_encoder_length (training df) = 365) by reflexivity.
  assert (E3 : min_prediction_length (training df) = 1) by reflexivity.
  assert (E4 : max_prediction_length (training df) = 7) by reflexivity.
  intros H. split; [reflexivity|]. split; [reflexivity|].
  unfold windows in H. apply window_lengths_bounds in H; rewrite ?E1, ?E2, ?E3, ?E4 in *; lia.
Qed.

(** 200 daily bars: the training split has 193 rows and yields, among
    others, the full window of 186 encoder steps and 7 targets. *)
Lemma training_window_lengths_witness :
  In (186, 7) (windows (training (add_features (daily_table 200))))
  /\ 182 <= 186 <= 365 /\ 1 <= 7 <= 7.
Proof.
  assert (H : In (186, 7) (windows (training (add_features (daily_table 200)))))
    by (vm_compute; left; reflexivity).
  split; [exact H|].
  apply (training_window_lengths (add_features (daily_table 200)) 186 7 H).
Defined.

(** ** [fetch_data] *)

Section FetchProperties.

Variable DataFrame_other : pyobj -> list string -> result (list RawRow).
Variable to_datetime_other : pyobj -> result Timestamp.
Variable fit_then_predict :
  Trainer -> LightningTFT -> OptimizerConfig -> DataLoader -> DataLoader -> result ndarray.

(** Exactly one request leaves the process, whatever comes back. *)
Lemma fetch_data_trace (srv : Server) : fst (run (fetch_data DataFrame_other to_datetime_other) srv) = [fetch_request].
Proof.
  unfold run, fetch_data, bind, requests_get, lift. simpl.
  fold fetch_request.
  destruct (srv 0%nat fetch_request) as [e|r]; [reflexivity|].
  destruct (response_json r) as [j|e]; [|reflexivity].
  destruct (getitem j "Data") as [d|e]; [|reflexivity].
  destruct (getitem d "Data") as [payload|e]; [|reflexivity].
  destruct (pd_DataFrame DataFrame_other payload fetch_columns) as [df|e]; reflexivity.
Qed.

Lemma convert_record (rec : list (string * pyobj)) :
  int_time rec ->
  convert_time to_datetime_other (record_row fetch_columns rec) = Ok (bar_of_record rec).
Proof.
  intros [z Hz]. unfold convert_time, bar_of_record.
  change (record_row fetch_columns rec "time") with (dict_get rec "time").
  rewrite Hz. reflexivity.
Qed.

Lemma convert_records (recs : list (list (string * pyobj))) :
  Forall int_time recs ->
  mapM (convert_time to_datetime_other) (map (record_row fetch_columns) recs)
  = Ok (map bar_of_record recs).
Proof.
  induction 1 as [|rec recs Hrec _ IH]; simpl; [reflexivity|].
  rewrite (convert_record Hrec), IH. reflexivity.
Qed.

(** On a response of the expected shape the table is the list of records,
    in the order received. *)
Lemma fetch_data_records (srv : Server) (r : Response) (j d : pyobj)
    (l : list pyobj) (recs : list (list (string * pyobj))) :
  srv 0%nat fetch_request = Responded r ->
  body r = Some j ->
  getitem j "Data" = Ok d ->
  getitem d "Data" = Ok (PList l) ->
  as_records l = Some recs ->
  Forall int_time recs ->
  run (fetch_data DataFrame_other to_datetime_other) srv = ([fetch_request], Ok (map bar_of_record recs)).
Proof.
  intros Hsrv Hbody Hj Hd Hrecs Hint.
  unfold run, fetch_data, bind, requests_get, lift. simpl.
  fold fetch_request. rewrite Hsrv. unfold response_json. rewrite Hbody, Hj, Hd.
  unfold pd_DataFrame. rewrite Hrecs. now rewrite convert_records.
Qed.

(** A failed call, a body that is not JSON, or a document without the
    [Data.Data] path: [fetch_data] raises after its one request. *)
Lemma fetch_data_raises (srv : Server) :
  (exists e, srv 0%nat fetch_request = Failed e)
  \/ (exists r, srv 0%nat fetch_request = Responded r /\ body r = None)
  \/ (exists r j, srv 0%nat fetch_request = Responded r /\ body r = Some j
                  /\ has_path j ["Data"; "Data"] = false) ->
  exists e, run (fetch_data DataFrame_other to_datetime_other) srv = ([fetch_request], Raise e)
            /\ (forall e', srv 0%nat fetch_request = Failed e' -> e = e').
Proof.
  unfold run, fetch_data, bind, requests_get, lift. simpl. fold fetch_request.
  intros [(e & H)|[(r & H & Hb)|(r & j & H & Hb & Hp)]]; rewrite H.
  - exists e. split; [reflexivity | congruence].
  - exists JSONDecodeError. unfold response_json. rewrite Hb. split; [reflexivity | discriminate].
  - unfold response_json. rewrite Hb. simpl in Hp.
    destruct (getitem j "Data") as [d|e].
    + destruct (getitem d "Data") as [payload|e]; [discriminate|].
      exists e. split; [reflexivity | discriminate].
    + exists e. split; [reflexivity | discriminate].
Qed.

(** An exception of [fetch_data] is the outcome of the whole script. *)
Lemma script_stops_with_fetch (srv : Server) (tr : list Request) (e : exn) :
  run (fetch_data DataFrame_other to_datetime_other) srv = (tr, Raise e) ->
  run (script DataFrame_other to_datetime_other fit_then_predict) srv = (tr, Raise e).
Proof.
  unfold run, script, bind. intros ->. reflexivity.
Qed.

End FetchProperties.

(** C6, as stated, fails on the column names: the table has a column
    [volumeto] and none called [volume].  On a one-bar answer of the
    endpoint the sixth column holds the record's [volumeto]; nothing is
    read under [volume]. *)
Lemma fetch_columns_counterexample :
  ~ (forall c, In c columns_as_stated -> In c fetch_columns)
  /\ run (fetch_data no_frame no_datetime) api_server
     = ([fetch_request],
        Ok [mkBar (Ts 1700006400000000000)
              (Some (PFloat (20597 # 10))) (Some (PFloat (19802 # 10)))
              (Some (PFloat (20655 # 10))) (Some (PFloat (19731 # 10)))
              (Some (PFloat (8300 # 1)))])
  /\ record_row fetch_columns api_record "volume" = None
  /\ record_row fetch_columns api_record "volumeto" = Some (PFloat (8300 # 1)).
Proof.
  split; [|repeat split].
  intros H. specialize (H "volume"). simpl in H.
  assert (Hin : "time" = "volume" \/ "close" = "volume" \/ "open" = "volume" \/
                "high" = "volume" \/ "low" = "volume" \/ "volume" = "volume" \/ False)
    by (do 5 right; left; reflexivity).
  apply H in Hin.
  repeat (destruct Hin as [Hin|Hin]; [discriminate Hin|]). exact Hin.
Qed.

(** C6 (amended).  [fetch_data] issues one GET to the histoday endpoint
    with [fsym=ETH], [tsym=USD], [limit=1729]; when the body is a JSON
    document whose [Data.Data] is a list of records with integer [time],
    the result is the table of those records, in order, with columns
    time, close, open, high, low, volumeto, where [time] is the instant
    that many seconds after the Unix epoch. *)
Theorem fetch_data_request_and_table
    (DataFrame_other : pyobj -> list string -> result (list RawRow))
    (to_datetime_other : pyobj -> result Timestamp) (srv : Server) :
  fst (run (fetch_data DataFrame_other to_datetime_other) srv)
  = [mkRequest "https://min-api.cryptocompare.com/data/v2/histoday"
       [("fsym", PStr "ETH"); ("tsym", PStr "USD"); ("limit", PInt 1729)]]
  /\ fetch_columns = ["time"; "close"; "open"; "high"; "low"; "volumeto"]
  /\ forall r j d l recs,
       srv 0%nat fetch_request = Responded r ->
       body r = Some j ->
       getitem j "Data" = Ok d ->
       getitem d "Data" = Ok (PList l) ->
       as_records l = Some recs ->
       Forall int_time recs ->
       snd (run (fetch_data DataFrame_other to_datetime_other) srv)
       = Ok (map bar_of_record recs)
       /\ (forall rec z, In rec recs -> dict_get rec "time" = Some (PInt z) ->
             time (bar_of_record rec) = Ts (z * 1000000000))
       /\ (forall rec, In rec recs ->
             close (bar_of_record rec) = dict_get rec "close"
             /\ open (bar_of_record rec) = dict_get rec "open"
             /\ high (bar_of_record rec) = dict_get rec "high"
             /\ low (bar_of_record rec) = dict_get rec "low"
             /\ volumeto (bar_of_record rec) = dict_get rec "volumeto").
Proof.
  split; [apply fetch_data_trace|]. split; [reflexivity|].
  intros r j d l recs Hsrv Hbody Hj Hd Hrecs Hint. split; [|split].
  - now rewrite (fetch_data_records DataFrame_other to_datetime_other
                   srv Hsrv Hbody Hj Hd Hrecs Hint).
  - intros rec z _ Hz. unfold bar_of_record. simpl. now rewrite Hz.
  - intros rec _. repeat split.
Qed.

(** The one-bar answer: the table has that bar, stamped 2023-11-15
    00:00:00 UTC. *)
Lemma fetch_data_request_and_table_witness :
  snd (run (fetch_data no_frame no_datetime) api_server) = Ok (map bar_of_record [api_record])
  /\ time (bar_of_record api_record) = Ts (1700006400 * 1000000000).
Proof.
  destruct (fetch_data_request_and_table no_frame no_datetime api_server) as (_ & _ & H).
  destruct (H (mkResponse 200
                 (Some (PDict [("Response", PStr "Success");
                               ("Data", PDict [("Aggregated", PBool false);
                                               ("Data", PList [PDict api_record])])])))
              (PDict [("Response", PStr "Success");
                      ("Data", PDict [("Aggregated", PBool false);
                                      ("Data", PList [PDict api_record])])])
              (PDict [("Aggregated", PBool false); ("Data", PList [PDict api_record])])
              [PDict api_record] [api_record])
    as (Htable & Htime & _); try reflexivity.
  - constructor; [exists 1700006400; reflexivity | constructor].
  - split; [exact Htable|]. apply Htime; [now left | reflexivity].
Defined.

(** C7.  When the call fails, or the body is not JSON, or the document
    lacks the [Data.Data] path, [fetch_data] raises after its single
    request, and the script ends with that same exception: no second
    request is made and nothing is reported. *)
Theorem fetch_failure_ends_the_run
    (DataFrame_other : pyobj -> list string -> result (list RawRow))
    (to_datetime_other : pyobj -> result Timestamp)
    (fit_then_predict :
       Trainer -> LightningTFT -> OptimizerConfig -> DataLoader -> DataLoader -> result ndarray)
    (srv : Server) :
  (exists e, srv 0%nat fetch_request = Failed e)
  \/ (exists r, srv 0%nat fetch_request = Responded r /\ body r = None)
  \/ (exists r j, srv 0%nat fetch_request = Responded r /\ body r = Some j
                  /\ has_path j ["Data"; "Data"] = false) ->
  exists e,
    run (fetch_data DataFrame_other to_datetime_other) srv = ([fetch_request], Raise e)
    /\ run (script DataFrame_other to_datetime_other fit_then_predict) srv
       = ([fetch_request], Raise e)
    /\ (forall e', srv 0%nat fetch_request = Failed e' -> e = e').
Proof.
  intros H.
  destruct (fetch_data_raises DataFrame_other to_datetime_other srv H) as (e & Hrun & Hsame).
  exists e. split; [exact Hrun|]. split; [|exact Hsame].
  now apply script_stops_with_fetch.
Qed.

(** The endpoint's error document has no [Data.Data]: the run ends with
    [KeyError] after one request. *)
Lemma fetch_failure_ends_the_run_witness :
  exists e,
    run (fetch_data no_frame no_datetime) error_server = ([fetch_request], Raise e)
    /\ run (script no_frame no_datetime flat_forecast) error_server
       = ([fetch_request], Raise e)
    /\ (forall e', error_server 0%nat fetch_request = Failed e' -> e = e').
Proof.
  apply (fetch_failure_ends_the_run no_frame no_datetime flat_forecast error_server).
  right. right.
  exists (mkResponse 200 (Some (PDict [("Response", PStr "Error"); ("Data", PDict [])]))).
  exists (PDict [("Response", PStr "Error"); ("Data", PDict [])]).
  repeat split.
Defined.

(** ** The model's outputs and quantiles *)

(** C9.  The model is built with 7 outputs and a quantile loss at the
    three quantiles 0.1, 0.5 and 0.9, which the adapter takes over:
    [output_size] is not the number of quantiles of the loss, although
    that is what the argument stands for. *)
Theorem output_size_is_not_the_quantile_count (df : list Row) :
  output_size (tft df) = 7
  /\ quantiles (loss (tft df)) = [1 # 10; 5 # 10; 9 # 10]
  /\ Z.of_nat (List.length (quantiles (loss (tft df)))) = 3
  /\ self_loss (LightningTFT_init (tft df)) = loss (tft df)
  /\ output_size (tft df) <> Z.of_nat (List.length (quantiles (loss (tft df)))).
Proof.
  repeat split. simpl. discriminate.
Qed.

(** ** The last known price and the last known date *)

Lemma iloc_last_snoc {A} (l : list A) (x : A) : iloc_last (l ++ [x]) = Ok x.
Proof.
  unfold iloc_last. now rewrite rev_unit.
Qed.

(** In a series in ascending order the maximum is the last element. *)
Lemma series_max_sorted_last (l : list Timestamp) (x : Timestamp) :
  Sorted ts_le (l ++ [x]) -> series_max (l ++ [x]) = x.
Proof.
  intros Hs. apply Sorted_StronglySorted in Hs; [|exact ts_le_trans].
  induction l as [|a l IH]; simpl in *.
  - now destruct x.
  - apply StronglySorted_inv in Hs. destruct Hs as [Hs Hall].
    fold (series_max (l ++ [x])). rewrite (IH Hs).
    rewrite Forall_forall in Hall.
    assert (Hax : ts_le a x) by (apply Hall, in_or_app; right; now left).
    unfold ts_le in Hax. destruct a as [|a], x as [|x]; simpl in *; try discriminate.
    apply Z.leb_le in Hax. f_equal. lia.
Qed.

(* ================================================================== *)
(** * Further properties of the script *)

(** ** [fetch_data]: what it reads and what it ignores *)

Section FetchMore.

Variable DataFrame_other : pyobj -> list string -> result (list RawRow).
Variable to_datetime_other : pyobj -> result Timestamp.
Variable fit_then_predict :
  Trainer -> LightningTFT -> OptimizerConfig -> DataLoader -> DataLoader -> result ndarray.

(** The run of [fetch_data] once the server has answered. *)
Lemma fetch_data_responded (srv : Server) (r : Response) :
  srv 0%nat fetch_request = Responded r ->
  run (fetch_data DataFrame_other to_datetime_other) srv =
  ([fetch_request],
   result_bind (response_json r) (fun j =>
   result_bind (getitem j "Data") (fun d =>
   result_bind (getitem d "Data") (fun payload =>
   result_bind (pd_DataFrame DataFrame_other payload fetch_columns) (fun df =>
   mapM (convert_time to_datetime_other) df))))).
Proof.
  intros Hsrv. unfold run, fetch_data, bind, requests_get, lift. simpl.
  fold fetch_request. rewrite Hsrv.
  destruct (response_json r) as [j|e]; [|reflexivity]. simpl.
  destruct (getitem j "Data") as [d|e]; [|reflexivity]. simpl.
  destruct (getitem d "Data") as [payload|e]; [|reflexivity]. simpl.
  destruct (pd_DataFrame DataFrame_other payload fetch_columns) as [df|e]; reflexivity.
Qed.

(** X1.  [fetch_data] never looks at the HTTP status: two servers whose
    answers to the request carry the same body give the same run. *)
Theorem fetch_data_ignores_status (srv srv' : Server) (r r' : Response) :
  srv 0%nat fetch_request = Responded r ->
  srv' 0%nat fetch_request = Responded r' ->
  body r = body r' ->
  run (fetch_data DataFrame_other to_datetime_other) srv
  = run (fetch_data DataFrame_other to_datetime_other) srv'.
Proof.
  intros H H' Hb. rewrite (fetch_data_responded _ H), (fetch_data_responded _ H').
  unfold response_json. now rewrite Hb.
Qed.

Lemma convert_record_missing (rec : list (string * pyobj)) :
  time_int_or_missing rec ->
  convert_time to_datetime_other (record_row fetch_columns rec) = Ok (bar_of_record rec).
Proof.
  intros H. unfold convert_time, bar_of_record.
  change (record_row fetch_columns rec "time") with (dict_get rec "time").
  destruct H as [H|[H|[z H]]]; rewrite H; reflexivity.
Qed.

Lemma convert_records_missing (recs : list (list (string * pyobj))) :
  Forall time_int_or_missing recs ->
  mapM (convert_time to_datetime_other) (map (record_row fetch_columns) recs)
  = Ok (map bar_of_record recs).
Proof.
  induction 1 as [|rec recs Hrec _ IH]; simpl; [reflexivity|].
  rewrite (convert_record_missing Hrec), IH. reflexivity.
Qed.

Lemma fetch_data_answers (srv : Server) (recs : list (list (string * pyobj))) :
  answers srv recs ->
  run (fetch_data DataFrame_other to_datetime_other) srv =
  ([fetch_request],
   mapM (convert_time to_datetime_other) (map (record_row fetch_columns) recs)).
Proof.
  intros (r & j & d & l & Hsrv & Hbody & Hj & Hd & Hrecs).
  rewrite (fetch_data_responded _ Hsrv). unfold response_json. rewrite Hbody. simpl.
  rewrite Hj. simpl. rewrite Hd. simpl. unfold pd_DataFrame. rewrite Hrecs. reflexivity.
Qed.

(** X2.  A record whose [time] is [null] or absent does not fail the
    fetch: it becomes a row without a timestamp.  With every [time] an
    integer, [null] or absent, the table has one row per record, in the
    order received, and a price the record lacks is [NaN]. *)
Theorem fetch_data_tolerates_missing_time
    (srv : Server) (recs : list (list (string * pyobj))) :
  answers srv recs ->
  Forall time_int_or_missing recs ->
  run (fetch_data DataFrame_other to_datetime_other) srv
  = ([fetch_request], Ok (map bar_of_record recs))
  /\ List.length (map bar_of_record recs) = List.length recs
  /\ (forall rec, In rec recs -> ~ int_time rec -> time (bar_of_record rec) = NaT)
  /\ (forall rec, In rec recs -> dict_get rec "close" = None ->
        close (bar_of_record rec) = None).
Proof.
  intros Hans Hall. split; [|split; [apply length_map|split]].
  - rewrite (fetch_data_answers Hans). now rewrite convert_records_missing.
  - intros rec Hin Hnot. rewrite Forall_forall in Hall.
    destruct (Hall rec Hin) as [H|[H|H]]; [| |contradiction];
      unfold bar_of_record; simpl; now rewrite H.
  - intros rec _ H. exact H.
Qed.

(** X3.  Only the six named keys of a record are read: two answers whose
    records agree, one by one, on those keys give the same table, whatever
    else the records carry. *)
Theorem fetch_data_reads_six_keys
    (srv srv' : Server) (recs recs' : list (list (string * pyobj))) :
  answers srv recs ->
  answers srv' recs' ->
  Forall2 (fun rec rec' => forall c, In c fetch_columns -> dict_get rec c = dict_get rec' c)
          recs recs' ->
  run (fetch_data DataFrame_other to_datetime_other) srv
  = run (fetch_data DataFrame_other to_datetime_other) srv'.
Proof.
  intros Hans Hans' Hagree.
  rewrite (fetch_data_answers Hans), (fetch_data_answers Hans').
  assert (E : mapM (convert_time to_datetime_other) (map (record_row fetch_columns) recs)
              = mapM (convert_time to_datetime_other) (map (record_row fetch_columns) recs')).
  { clear Hans Hans'.
    induction Hagree as [|rec rec' recs0 recs0' Hrec _ IH]; [reflexivity|].
    simpl. rewrite IH.
    assert (Erow : convert_time to_datetime_other (record_row fetch_columns rec)
                   = convert_time to_datetime_other (record_row fetch_columns rec')).
    { unfold convert_time.
      change (record_row fetch_columns rec "time") with (dict_get rec "time").
      change (record_row fetch_columns rec' "time") with (dict_get rec' "time").
      change (record_row fetch_columns rec "close") with (dict_get rec "close").
      change (record_row fetch_columns rec' "close") with (dict_get rec' "close").
      change (record_row fetch_columns rec "open") with (dict_get rec "open").
      change (record_row fetch_columns rec' "open") with (dict_get rec' "open").
      change (record_row fetch_columns rec "high") with (dict_get rec "high").
      change (record_row fetch_columns rec' "high") with (dict_get rec' "high").
      change (record_row fetch_columns rec "low") with (dict_get rec "low").
      change (record_row fetch_columns rec' "low") with (dict_get rec' "low").
      change (record_row fetch_columns rec "volumeto") with (dict_get rec "volumeto").
      change (record_row fetch_columns rec' "volumeto") with (dict_get rec' "volumeto").
      rewrite (Hrec "time") by (simpl; tauto).
      rewrite (Hrec "close") by (simpl; tauto).
      rewrite (Hrec "open") by (simpl; tauto).
      rewrite (Hrec "high") by (simpl; tauto).
      rewrite (Hrec "low") by (simpl; tauto).
      rewrite (Hrec "volumeto") by (simpl; tauto).
      reflexivity. }
    now rewrite Erow. }
  now rewrite E.
Qed.

(** X4.  Which exception a malformed document raises: a document, or a
    [Data] member, that is not an object raises [TypeError]; an object
    without the [Data] key raises [KeyError "Data"]. *)
Theorem fetch_data_exception (srv : Server) (r : Response) (j : pyobj) :
  srv 0%nat fetch_request = Responded r ->
  body r = Some j ->
  (is_dict j = false ->
     snd (run (fetch_data DataFrame_other to_datetime_other) srv) = Raise TypeError)
  /\ (forall d, j = PDict d -> dict_get d "Data" = None ->
        snd (run (fetch_data DataFrame_other to_datetime_other) srv)
        = Raise (KeyError "Data"))
  /\ (forall d v, j = PDict d -> dict_get d "Data" = Some v -> is_dict v = false ->
        snd (run (fetch_data DataFrame_other to_datetime_other) srv) = Raise TypeError)
  /\ (forall d d', j = PDict d -> dict_get d "Data" = Some (PDict d') ->
        dict_get d' "Data" = None ->
        snd (run (fetch_data DataFrame_other to_datetime_other) srv)
        = Raise (KeyError "Data")).
Proof.
  intros Hsrv Hbody. rewrite (fetch_data_responded _ Hsrv).
  unfold response_json. rewrite Hbody. simpl. repeat split.
  - intros H. destruct j; try reflexivity. discriminate H.
  - intros d -> H. simpl. now rewrite H.
  - intros d v -> H Hv. simpl. rewrite H. simpl. destruct v; try reflexivity. discriminate Hv.
  - intros d d' -> H H'. simpl. rewrite H. simpl. now rewrite H'.
Qed.

End FetchMore.

Lemma as_records_dicts (recs : list (list (string * pyobj))) :
  as_records (map PDict recs) = Some recs.
Proof.
  induction recs as [|rec recs IH]; simpl; [reflexivity|]. now rewrite IH.
Qed.

Lemma records_server_answers (recs : list (list (string * pyobj))) :
  answers (records_server recs) recs.
Proof.
  exists (mkResponse 200 (Some (PDict [("Data", PDict [("Data", PList (map PDict recs))])]))).
  exists (PDict [("Data", PDict [("Data", PList (map PDict recs))])]).
  exists (PDict [("Data", PList (map PDict recs))]).
  exists (map PDict recs).
  repeat split. apply as_records_dicts.
Qed.

(** The same bar under status 200 and under status 500. *)
Lemma fetch_data_ignores_status_witness :
  run (fetch_data no_frame no_datetime) api_server
  = run (fetch_data no_frame no_datetime) api_server_500.
Proof.
  eapply fetch_data_ignores_status; reflexivity.
Defined.

(** A bar followed by a record that has only a close. *)
Lemma fetch_data_tolerates_missing_time_witness :
  run (fetch_data no_frame no_datetime)
      (records_server [api_record; [("close", PFloat (2 # 1))]])
  = ([fetch_request],
     Ok [bar_of_record api_record;
         mkBar NaT (Some (PFloat (2 # 1))) None None None None]).
Proof.
  apply (fetch_data_tolerates_missing_time no_frame no_datetime
           (records_server_answers [api_record; [("close", PFloat (2 # 1))]])).
  constructor.
  - right. right. exists 1700006400. reflexivity.
  - constructor; [left; reflexivity | constructor].
Defined.

(** The bar with and without the keys the script does not name. *)
Lemma fetch_data_reads_six_keys_witness :
  run (fetch_data no_frame no_datetime) (records_server [api_record])
  = run (fetch_data no_frame no_datetime)
        (records_server [[("time", PInt 1700006400);
                          ("close", PFloat (20597 # 10));
                          ("open", PFloat (19802 # 10));
                          ("high", PFloat (20655 # 10));
                          ("low", PFloat (19731 # 10));
                          ("volumeto", PFloat (8300 # 1))]]).
Proof.
  apply (fetch_data_reads_six_keys no_frame no_datetime
           (records_server_answers _) (records_server_answers _)).
  constructor; [|constructor].
  intros c Hc. simpl in Hc.
  repeat (destruct Hc as [Hc|Hc]; [subst c; reflexivity|]). destruct Hc.
Defined.

(** The endpoint's error document: [Data] is there, [Data.Data] is not. *)
Lemma fetch_data_exception_witness :
  snd (run (fetch_data no_frame no_datetime) error_server) = Raise (KeyError "Data").
Proof.
  destruct (fetch_data_exception no_frame no_datetime error_server
              (r := mkResponse 200 (Some (PDict [("Response", PStr "Error"); ("Data", PDict [])])))
              (j := PDict [("Response", PStr "Error"); ("Data", PDict [])])
              eq_refl eq_refl) as (_ & _ & _ & H).
  apply (H [("Response", PStr "Error"); ("Data", PDict [])] []); reflexivity.
Defined.

(** ** The script as a whole *)

Section ScriptMore.

Variable DataFrame_other : pyobj -> list string -> result (list RawRow).
Variable to_datetime_other : pyobj -> result Timestamp.
Variable fit_then_predict :
  Trainer -> LightningTFT -> OptimizerConfig -> DataLoader -> DataLoader -> result ndarray.

(** The script once the table is fetched. *)
Lemma script_after_fetch (srv : Server) (tr : list Request) (df0 : DataFrame) :
  run (fetch_data DataFrame_other to_datetime_other) srv = (tr, Ok df0) ->
  run (script DataFrame_other to_datetime_other fit_then_predict) srv =
  (tr,
   result_bind
     (trainer_fit_predict fit_then_predict trainer (LightningTFT_init (tft (add_features df0)))
        (train_dataloader (add_features df0)) (val_dataloader (add_features df0)))
     (fun predicted_prices =>
      result_bind (first_row predicted_prices) (fun predicted_row =>
      result_bind (last_known_price (add_features df0)) (fun price =>
      Ok [PrintLastKnownPrice price;
          PrintPredictions
            (combine (future_dates (add_features df0) predicted_prices) predicted_row);
          ShowPlot (map (fun r => (row_time r, close (bar r))) (add_features df0))
            (combine (future_dates (add_features df0) predicted_prices) predicted_row)])))).
Proof.
  unfold run, script, bind, lift, ret. intros ->.
  destruct (trainer_fit_predict _ _ _ _ _) as [pp|e]; [|reflexivity]. simpl.
  destruct (first_row pp) as [row|e]; [|reflexivity]. simpl.
  destruct (last_known_price _) as [price|e]; reflexivity.
Qed.

(** X5.  Whatever the server answers and whatever happens afterwards,
    the script sends exactly one request. *)
Theorem script_sends_one_request (srv : Server) :
  fst (run (script DataFrame_other to_datetime_other fit_then_predict) srv)
  = [fetch_request].
Proof.
  pose proof (fetch_data_trace DataFrame_other to_datetime_other srv) as Htr.
  destruct (run (fetch_data DataFrame_other to_datetime_other) srv) as [tr [df0|e]] eqn:E;
    simpl in Htr; subst tr.
  - now rewrite (script_after_fetch _ E).
  - now rewrite (script_stops_with_fetch _ _ fit_then_predict _ E).
Qed.

(** X6.  An exception raised while building the datasets, training or
    predicting is the outcome of the script: nothing is printed. *)
Theorem framework_failure_ends_the_run
    (srv : Server) (tr : list Request) (df0 : DataFrame) (e : exn) :
  run (fetch_data DataFrame_other to_datetime_other) srv = (tr, Ok df0) ->
  fit_then_predict trainer (LightningTFT_init (tft (add_features df0)))
    (configure_optimizers (LightningTFT_init (tft (add_features df0))))
    (train_dataloader (add_features df0)) (val_dataloader (add_features df0)) = Raise e ->
  run (script DataFrame_other to_datetime_other fit_then_predict) srv = (tr, Raise e).
Proof.
  intros Hfetch Hfit. rewrite (script_after_fetch _ Hfetch).
  unfold trainer_fit_predict. now rewrite Hfit.
Qed.

(** X7.  A completed run reports the close of the table's final row, the
    first row of the forecast paired date by date with the future dates,
    and the plot of the whole table; forecast rows after the first are
    not used. *)
Theorem script_report
    (srv : Server) (tr : list Request) (df0 : DataFrame) (b : Bar) (pp : ndarray) :
  run (fetch_data DataFrame_other to_datetime_other) srv = (tr, Ok (df0 ++ [b])) ->
  fit_then_predict trainer (LightningTFT_init (tft (add_features (df0 ++ [b]))))
    (configure_optimizers (LightningTFT_init (tft (add_features (df0 ++ [b])))))
    (train_dataloader (add_features (df0 ++ [b])))
    (val_dataloader (add_features (df0 ++ [b]))) = Ok pp ->
  (0 < shape0 pp)%nat ->
  let df := add_features (df0 ++ [b]) in
  let prediction_df := combine (future_dates df pp) (map (item pp 0) (seq 0 (shape1 pp))) in
  run (script DataFrame_other to_datetime_other fit_then_predict) srv
  = (tr, Ok [PrintLastKnownPrice (close b);
             PrintPredictions prediction_df;
             ShowPlot (map (fun r => (row_time r, close (bar r))) df) prediction_df])
  /\ List.length prediction_df = shape1 pp
  /\ map fst (map (fun r => (row_time r, close (bar r))) df) = map time (df0 ++ [b]).
Proof.
  intros Hfetch Hfit Hrows df prediction_df. split; [|split].
  - rewrite (script_after_fetch _ Hfetch). unfold trainer_fit_predict. rewrite Hfit. simpl.
    unfold first_row. destruct (shape0 pp); [lia|]. simpl.
    unfold last_known_price. rewrite <- (map_map bar close), add_features_bars, map_app.
    simpl. rewrite iloc_last_snoc. reflexivity.
  - unfold prediction_df. rewrite length_combine, future_dates_length, length_map, length_seq.
    apply Nat.min_id.
  - rewrite map_map. simpl. fold row_time. apply add_features_times.
Qed.

(** X8.  A forecast without rows makes [predicted_prices[0]] raise
    [IndexError], before anything is printed. *)
Theorem empty_forecast_raises
    (srv : Server) (tr : list Request) (df0 : DataFrame) (pp : ndarray) :
  run (fetch_data DataFrame_other to_datetime_other) srv = (tr, Ok df0) ->
  fit_then_predict trainer (LightningTFT_init (tft (add_features df0)))
    (configure_optimizers (LightningTFT_init (tft (add_features df0))))
    (train_dataloader (add_features df0)) (val_dataloader (add_features df0)) = Ok pp ->
  shape0 pp = 0%nat ->
  run (script DataFrame_other to_datetime_other fit_then_predict) srv = (tr, Raise IndexError).
Proof.
  intros Hfetch Hfit Hrows. rewrite (script_after_fetch _ Hfetch).
  unfold trainer_fit_predict. rewrite Hfit. simpl. unfold first_row. now rewrite Hrows.
Qed.

(** X9.  An empty history is fetched without error, but the run cannot
    complete on it: if the framework does not raise, reading the last
    close raises [IndexError]. *)
Theorem empty_history_ends_the_run (srv : Server) :
  answers srv [] ->
  run (fetch_data DataFrame_other to_datetime_other) srv = ([fetch_request], Ok [])
  /\ exists e,
       run (script DataFrame_other to_datetime_other fit_then_predict) srv
       = ([fetch_request], Raise e)
       /\ (forall pp,
             fit_then_predict trainer (LightningTFT_init (tft []))
               (configure_optimizers (LightningTFT_init (tft [])))
               (train_dataloader []) (val_dataloader []) = Ok pp ->
             e = IndexError).
Proof.
  intros Hans.
  assert (Hfetch : run (fetch_data DataFrame_other to_datetime_other) srv
                   = ([fetch_request], Ok [])).
  { now rewrite (fetch_data_answers DataFrame_other to_datetime_other Hans). }
  split; [exact Hfetch|]. rewrite (script_after_fetch _ Hfetch).
  unfold trainer_fit_predict. change (add_features []) with (@nil Row).
  destruct (fit_then_predict _ _ _ _ _) as [pp|e] eqn:Hfit; simpl.
  - exists IndexError. split; [|reflexivity].
    unfold first_row. destruct (shape0 pp); reflexivity.
  - exists e. split; [reflexivity|]. intros pp Hpp. discriminate Hpp.
Qed.

End ScriptMore.

(** The one-bar answer and a framework that fails. *)
Lemma framework_failure_ends_the_run_witness :
  run (script no_frame no_datetime failing_framework) api_server
  = ([fetch_request], Raise (LibraryError "training diverged")).
Proof.
  apply (framework_failure_ends_the_run no_frame no_datetime failing_framework
           api_server (df0 := [bar_of_record api_record])); reflexivity.
Defined.

(** The one-bar answer and a flat forecast of seven values. *)
Lemma script_report_witness :
  run (script no_frame no_datetime flat_forecast) api_server
  = ([fetch_request],
     Ok [PrintLastKnownPrice (Some (PFloat (20597 # 10)));
         PrintPredictions
           (combine (future_dates (add_features [bar_of_record api_record])
                       (mkndarray 1 7 (fun _ _ => 2000 # 1)))
                    [2000 # 1; 2000 # 1; 2000 # 1; 2000 # 1; 2000 # 1; 2000 # 1; 2000 # 1]);
         ShowPlot [(Ts 1700006400000000000, Some (PFloat (20597 # 10)))]
           (combine (future_dates (add_features [bar_of_record api_record])
                       (mkndarray 1 7 (fun _ _ => 2000 # 1)))
                    [2000 # 1; 2000 # 1; 2000 # 1; 2000 # 1; 2000 # 1; 2000 # 1; 2000 # 1])]).
Proof.
  apply (script_report no_frame no_datetime flat_forecast api_server
           [] (bar_of_record api_record)
           (pp := mkndarray 1 7 (fun _ _ => 2000 # 1))).
  - reflexivity.
  - reflexivity.
  - simpl. lia.
Defined.

(** The one-bar answer and a forecast with no rows. *)
Lemma empty_forecast_raises_witness :
  run (script no_frame no_datetime empty_forecast) api_server
  = ([fetch_request], Raise IndexError).
Proof.
  apply (empty_forecast_raises no_frame no_datetime empty_forecast api_server
           (df0 := [bar_of_record api_record]) (pp := mkndarray 0 7 (fun _ _ => 0%Q)));
    reflexivity.
Defined.

(** An answer with no bars, and a framework that would still forecast. *)
Lemma empty_history_ends_the_run_witness :
  exists e,
    run (script no_frame no_datetime flat_forecast) (records_server [])
    = ([fetch_request], Raise e)
    /\ (forall pp,
          flat_forecast trainer (LightningTFT_init (tft []))
            (configure_optimizers (LightningTFT_init (tft [])))
            (train_dataloader []) (val_dataloader []) = Ok pp ->
          e = IndexError).
Proof.
  apply (empty_history_ends_the_run no_frame no_datetime flat_forecast
           (records_server_answers [])).
Defined.

(** ** The forecast table and the future dates *)

Lemma map_fst_combine {A B} (l : list A) (l' : list B) :
  List.length l = List.length l' -> map fst (combine l l') = l.
Proof.
  revert l'. induction l as [|a l IH]; intros [|b l'] H; simpl in *; try discriminate;
    [reflexivity|]. f_equal. apply IH. lia.
Qed.

Lemma map_snd_combine {A B} (l : list A) (l' : list B) :
  List.length l = List.length l' -> map snd (combine l l') = l'.
Proof.
  revert l'. induction l as [|a l IH]; intros [|b l'] H; simpl in *; try discriminate;
    [reflexivity|]. f_equal. apply IH. lia.
Qed.

(** X10.  Dates and prices of the forecast table always line up: there
    is one future date for each value of the forecast's first row, so
    pairing them drops neither a date nor a price. *)
Theorem forecast_table_alignment (df : list Row) (pp : ndarray) (row : list Q) :
  first_row pp = Ok row ->
  map fst (combine (future_dates df pp) row) = future_dates df pp
  /\ map snd (combine (future_dates df pp) row) = row
  /\ List.length (combine (future_dates df pp) row) = shape1 pp.
Proof.
  intros Hrow.
  assert (Hlen : List.length (future_dates df pp) = List.length row).
  { rewrite future_dates_length. symmetry. now apply first_row_length. }
  split; [now apply map_fst_combine|]. split; [now apply map_snd_combine|].
  rewrite length_combine, <- Hlen, future_dates_length. apply Nat.min_id.
Qed.

Lemma forecast_table_alignment_witness :
  map snd (combine (future_dates (add_features (daily_table 3))
                      (mkndarray 2 3 (fun i j => Z.of_nat (i + j) # 1)))
                   [0 # 1; 1 # 1; 2 # 1])
  = [0 # 1; 1 # 1; 2 # 1].
Proof.
  apply (forecast_table_alignment (add_features (daily_table 3))
           (mkndarray 2 3 (fun i j => Z.of_nat (i + j) # 1))).
  reflexivity.
Defined.

Lemma future_dates_strongly_sorted (m : Z) (a n : nat) :
  StronglySorted ts_lt
    (map (fun i => Ts (m + (Z.of_nat i + 1) * NS_PER_DAY)) (seq a n)).
Proof.
  revert a. induction n as [|n IH]; intros a; cbn [seq map]; constructor.
  - apply IH.
  - apply Forall_forall. intros d Hd. apply in_map_iff in Hd.
    destruct Hd as (i & <- & Hi). apply in_seq in Hi.
    unfold ts_lt. pose proof NS_PER_DAY_pos. nia.
Qed.

Lemma future_dates_from (df : list Row) (pp : ndarray) (m : Z) :
  last_known_date df = Ts m ->
  future_dates df pp
  = map (fun i => Ts (m + (Z.of_nat i + 1) * NS_PER_DAY)) (seq 0 (shape1 pp)).
Proof.
  intros H. unfold future_dates. rewrite H. reflexivity.
Qed.

(** X11.  Whatever the width of the forecast, there is one future date
    per column, the [i]-th one (from 0) is [i + 1] days after the latest
    timestamp of the table, the dates are in strictly increasing order,
    and every one of them lies strictly after every timestamp of the
    table. *)
Theorem future_dates_after_history
    (df0 : DataFrame) (pp : ndarray) (b : Bar) (t : Z) :
  In b df0 -> time b = Ts t ->
  exists m,
    series_max (map time df0) = Ts m
    /\ t <= m
    /\ List.length (future_dates (add_features df0) pp) = shape1 pp
    /\ (forall i, (i < shape1 pp)%nat ->
          nth_error (future_dates (add_features df0) pp) i
          = Some (Ts (m + (Z.of_nat i + 1) * NS_PER_DAY)))
    /\ StronglySorted ts_lt (future_dates (add_features df0) pp)
    /\ (forall d, In d (future_dates (add_features df0) pp) ->
          ts_lt (Ts t) d
          /\ exists i, (i < shape1 pp)%nat /\ d = Ts (m + (Z.of_nat i + 1) * NS_PER_DAY)).
Proof.
  intros Hb Ht.
  assert (Hmem : In (Ts t) (map time df0)) by (rewrite <- Ht; now apply in_map).
  destruct (series_max_cases (map time df0)) as [[_ H]|(m & E & _ & Hub)].
  { apply H in Hmem. discriminate. }
  assert (Hlast : last_known_date (add_features df0) = Ts m).
  { unfold last_known_date. now rewrite add_features_times. }
  pose proof (Hub t Hmem) as Hle. pose proof NS_PER_DAY_pos as Hpos.
  exists m. split; [exact E|]. split; [exact Hle|]. split; [apply future_dates_length|].
  split; [|split].
  - intros i Hi. rewrite (@future_dates_nth (add_features df0) pp i Hi), Hlast. reflexivity.
  - rewrite (@future_dates_from _ pp _ Hlast). apply future_dates_strongly_sorted.
  - intros d Hd. rewrite (@future_dates_from _ pp _ Hlast) in Hd. apply in_map_iff in Hd.
    destruct Hd as (i & <- & Hi). apply in_seq in Hi. split.
    + unfold ts_lt. nia.
    + exists i. split; [lia | reflexivity].
Qed.

(** Three daily bars and a forecast of seven columns: the third date is
    day 5, three days after the last bar. *)
Lemma future_dates_after_history_witness :
  nth_error (future_dates (add_features (daily_table 3)) (mkndarray 1 7 (fun _ _ => 0%Q))) 2
  = Some (Ts (2 * NS_PER_DAY + 3 * NS_PER_DAY)).
Proof.
  destruct (@future_dates_after_history (daily_table 3) (mkndarray 1 7 (fun _ _ => 0%Q))
              (daily_bar 1 101) (1 * NS_PER_DAY)) as (m & Hm & _ & _ & Hnth & _).
  - vm_compute. right. left. reflexivity.
  - reflexivity.
  - vm_compute in Hm. injection Hm as <-. apply (Hnth 2%nat). simpl. lia.
Defined.

(** ** Tables without timestamps, and tables in order *)

Lemma series_max_all_NaT (l : list Timestamp) :
  (forall t, In t l -> t = NaT) -> series_max l = NaT.
Proof.
  intros H. destruct (series_max_cases l) as [[E _]|(m & _ & Hin & _)]; [exact E|].
  apply H in Hin. discriminate.
Qed.

Lemma filter_none {A} (p : A -> bool) (l : list A) :
  (forall x, In x l -> p x = false) -> filter p l = [].
Proof.
  induction l as [|a l IH]; intros H; simpl; [reflexivity|].
  rewrite (H a) by now left. apply IH. intros x Hx. apply H. now right.
Qed.

Lemma filter_all {A} (p : A -> bool) (l : list A) :
  (forall x, In x l -> p x = true) -> filter p l = l.
Proof.
  induction l as [|a l IH]; intros H; simpl; [reflexivity|].
  rewrite (H a) by now left. f_equal. apply IH. intros x Hx. apply H. now right.
Qed.

(** X12.  On a table none of whose rows has a timestamp (the empty table
    included) the cutoff is [NaT], no row is a training row, the whole
    table is held out, no row gets a day index, and every future date is
    [NaT]. *)
Theorem table_without_timestamps (df0 : DataFrame) (pp : ndarray) :
  (forall b, In b df0 -> time b = NaT) ->
  let df := add_features df0 in
  training_cutoff df = NaT
  /\ data (training df) = []
  /\ held_out df = df
  /\ (forall r, In r df -> time_idx r = None)
  /\ (forall d, In d (future_dates df pp) -> d = NaT).
Proof.
  intros Hall df.
  assert (Hmax : series_max (map row_time df) = NaT).
  { unfold df. rewrite add_features_times. apply series_max_all_NaT.
    intros t Ht. apply in_map_iff in Ht. destruct Ht as (b & <- & Hb). now apply Hall. }
  assert (Hcut : training_cutoff df = NaT) by (unfold training_cutoff; now rewrite Hmax).
  split; [exact Hcut|]. split; [|split; [|split]].
  - simpl. unfold training_split. apply filter_none. intros x _. rewrite Hcut.
    now destruct (row_time x).
  - unfold held_out. apply filter_all. intros x _. rewrite Hcut. now destruct (row_time x).
  - intros r Hr. unfold df, add_features in Hr. apply in_map_iff in Hr.
    destruct Hr as (b & <- & Hb). simpl. now rewrite (Hall b Hb).
  - intros d Hd. unfold future_dates in Hd. apply in_map_iff in Hd.
    destruct Hd as (i & <- & _). unfold last_known_date. now rewrite Hmax.
Qed.

Lemma table_without_timestamps_witness :
  training_cutoff (add_features [mkBar NaT (Some (PInt 1)) None None None None]) = NaT
  /\ data (training (add_features [mkBar NaT (Some (PInt 1)) None None None None])) = [].
Proof.
  destruct (table_without_timestamps [mkBar NaT (Some (PInt 1)) None None None None]
              (mkndarray 1 7 (fun _ _ => 0%Q))) as (H1 & H2 & _).
  - intros b [<-|[]]. reflexivity.
  - split; [exact H1 | exact H2].
Defined.

Lemma sorted_split (c : Timestamp) (l : list Row) :
  StronglySorted ts_le (map row_time l) ->
  filter (fun x => ts_leb (row_time x) c) l
  ++ filter (fun x => negb (ts_leb (row_time x) c)) l = l.
Proof.
  induction l as [|a l IH]; intros Hs; simpl; [reflexivity|].
  simpl in Hs. apply StronglySorted_inv in Hs. destruct Hs as [Hs Hall].
  destruct (ts_leb (row_time a) c) eqn:Ea; simpl.
  - f_equal. now apply IH.
  - rewrite filter_none, filter_all; [reflexivity| |].
    + intros x Hx. apply negb_true_iff.
      rewrite Forall_forall in Hall. specialize (Hall (row_time x) (in_map row_time l x Hx)).
      unfold ts_le in Hall. destruct (row_time a) as [|ta], (row_time x) as [|tx], c as [|tc];
        simpl in *; try discriminate; try reflexivity.
      apply Z.leb_le in Hall. apply Z.leb_gt in Ea. apply Z.leb_gt. lia.
    + intros x Hx.
      rewrite Forall_forall in Hall. specialize (Hall (row_time x) (in_map row_time l x Hx)).
      unfold ts_le in Hall. destruct (row_time a) as [|ta], (row_time x) as [|tx], c as [|tc];
        simpl in *; try discriminate; try reflexivity.
      apply Z.leb_le in Hall. apply Z.leb_gt in Ea. apply Z.leb_gt. lia.
Qed.

(** X13.  When the rows arrive in ascending time order the split cuts
    the table in two: the training rows are a prefix and the held-out
    rows the remaining suffix. *)
Theorem sorted_table_split_is_a_cut (df0 : DataFrame) :
  Sorted ts_le (map time df0) ->
  data (training (add_features df0)) ++ held_out (add_features df0) = add_features df0.
Proof.
  intros Hs. apply Sorted_StronglySorted in Hs; [|exact ts_le_trans].
  simpl. unfold training_split, held_out. apply sorted_split.
  now rewrite add_features_times.
Qed.

Lemma sorted_table_split_is_a_cut_witness :
  data (training (add_features (daily_table 10))) ++ held_out (add_features (daily_table 10))
  = add_features (daily_table 10).
Proof.
  apply sorted_table_split_is_a_cut. vm_compute.
  repeat first [apply Sorted_nil | apply Sorted_cons | apply HdRel_nil | apply HdRel_cons];
    reflexivity.
Defined.

(** ** More on the day index *)

Lemma time_idx_of_row (df0 : DataFrame) (r : Row) :
  In r (add_features df0) ->
  time_idx r = dt_days (ts_diff (row_time r) (series_min (map time df0))).
Proof.
  intros Hr. unfold add_features in Hr. apply in_map_iff in Hr.
  destruct Hr as (b & <- & _). reflexivity.
Qed.

(** X14.  Two rows whose timestamps are exactly [k] days apart have day
    indices exactly [k] apart, wherever the rows stand in the table. *)
Theorem time_idx_days_apart (df0 : DataFrame) (r r' : Row) (t k : Z) :
  In r (add_features df0) -> In r' (add_features df0) ->
  row_time r = Ts t -> row_time r' = Ts (t + k * NS_PER_DAY) ->
  exists i, time_idx r = Some i /\ time_idx r' = Some (i + k).
Proof.
  intros Hr Hr' Ht Ht'.
  assert (Hmem : In (Ts t) (map time df0)).
  { rewrite <- add_features_times, <- Ht. now apply in_map. }
  destruct (series_min_present _ _ Hmem) as (t0 & E & _).
  rewrite (time_idx_of_row _ _ Hr), (time_idx_of_row _ _ Hr'), Ht, Ht', E. simpl.
  exists ((t - t0) / NS_PER_DAY). split; [reflexivity|]. f_equal.
  replace (t + k * NS_PER_DAY - t0) with (t - t0 + k * NS_PER_DAY) by lia.
  apply Z.div_add. pose proof NS_PER_DAY_pos. lia.
Qed.

Lemma time_idx_days_apart_witness :
  exists i, time_idx (mkRow (daily_bar 1 101) (Some 1) "eth_usd") = Some i
            /\ time_idx (mkRow (daily_bar 4 104) (Some 4) "eth_usd") = Some (i + 3).
Proof.
  apply (@time_idx_days_apart (daily_table 5)
           (mkRow (daily_bar 1 101) (Some 1) "eth_usd")
           (mkRow (daily_bar 4 104) (Some 4) "eth_usd") (1 * NS_PER_DAY) 3).
  - vm_compute. right. left. reflexivity.
  - vm_compute. do 4 right. left. reflexivity.
  - reflexivity.
  - reflexivity.
Defined.

Lemma ts_min2_shift (a b : Timestamp) (delta : Z) :
  ts_min2 (ts_add a delta) (ts_add b delta) = ts_add (ts_min2 a b) delta.
Proof.
  destruct a, b; simpl; try reflexivity. f_equal. lia.
Qed.

Lemma ts_max2_shift (a b : Timestamp) (delta : Z) :
  ts_max2 (ts_add a delta) (ts_add b delta) = ts_add (ts_max2 a b) delta.
Proof.
  destruct a, b; simpl; try reflexivity. f_equal. lia.
Qed.

Lemma series_min_shift (l : list Timestamp) (delta : Z) :
  series_min (map (fun t => ts_add t delta) l) = ts_add (series_min l) delta.
Proof.
  induction l as [|a l IH]; simpl; [reflexivity|].
  fold (series_min (map (fun t => ts_add t delta) l)). fold (series_min l).
  rewrite IH. apply ts_min2_shift.
Qed.

Lemma series_max_shift (l : list Timestamp) (delta : Z) :
  series_max (map (fun t => ts_add t delta) l) = ts_add (series_max l) delta.
Proof.
  induction l as [|a l IH]; simpl; [reflexivity|].
  fold (series_max (map (fun t => ts_add t delta) l)). fold (series_max l).
  rewrite IH. apply ts_max2_shift.
Qed.

(** X15.  Shifting every timestamp of the table by the same amount
    changes no day index, and moves the training cutoff by that amount. *)
Theorem time_idx_shift_invariant (df0 : DataFrame) (delta : Z) :
  map time_idx (add_features (map (shift_bar delta) df0)) = map time_idx (add_features df0)
  /\ training_cutoff (add_features (map (shift_bar delta) df0))
     = ts_add (training_cutoff (add_features df0)) delta.
Proof.
  split.
  - unfold add_features. rewrite !map_map. simpl.
    rewrite <- (map_map time (fun t => ts_add t delta)), series_min_shift.
    apply map_ext. intros b.
    destruct (time b) as [|t], (series_min (map time df0)) as [|t0]; simpl; try reflexivity.
    do 2 f_equal. lia.
  - unfold training_cutoff. rewrite !add_features_times.
    rewrite map_map. simpl.
    rewrite <- (map_map time (fun t => ts_add t delta)), series_max_shift.
    destruct (series_max (map time df0)); simpl; [reflexivity|]. f_equal. lia.
Qed.

(** X16.  On a table with a timestamp, some row has day index 0, and
    every day index lies between 0 and the whole days from the earliest
    to the latest timestamp. *)
Theorem time_idx_range (df0 : DataFrame) (b : Bar) (t : Z) :
  In b df0 -> time b = Ts t ->
  exists t0 m,
    series_min (map time df0) = Ts t0
    /\ series_max (map time df0) = Ts m
    /\ (exists r, In r (add_features df0) /\ row_time r = Ts t0 /\ time_idx r = Some 0)
    /\ (forall r k, In r (add_features df0) -> time_idx r = Some k ->
          0 <= k <= (m - t0) / NS_PER_DAY).
Proof.
  intros Hb Ht.
  assert (Hmem : In (Ts t) (map time df0)) by (rewrite <- Ht; now apply in_map).
  destruct (series_min_cases (map time df0)) as [[_ H]|(t0 & Emin & Hmin & Hlb)];
    [apply H in Hmem; discriminate|].
  destruct (series_max_cases (map time df0)) as [[_ H]|(m & Emax & _ & Hub)];
    [apply H in Hmem; discriminate|].
  exists t0, m. split; [exact Emin|]. split; [exact Emax|]. split.
  - apply in_map_iff in Hmin. destruct Hmin as (b0 & Hb0 & Hin0).
    exists (mkRow b0 (dt_days (ts_diff (time b0) (series_min (map time df0)))) "eth_usd").
    split; [|split].
    + unfold add_features. apply in_map_iff. exists b0. now split.
    + exact Hb0.
    + simpl. rewrite Hb0, Emin. simpl. now rewrite Z.sub_diag.
  - intros r k Hr Hk. rewrite (time_idx_of_row _ _ Hr), Emin in Hk.
    destruct (row_time r) as [|tr] eqn:Er; [discriminate|]. simpl in Hk.
    injection Hk as <-.
    assert (Htr : In (Ts tr) (map time df0)).
    { rewrite <- add_features_times, <- Er. now apply in_map. }
    pose proof (Hlb _ Htr). pose proof (Hub _ Htr). pose proof NS_PER_DAY_pos. split.
    + apply Z.div_pos; lia.
    + apply Z.div_le_mono; lia.
Qed.

Lemma time_idx_range_witness :
  exists t0 m,
    series_min (map time [daily_bar 5 1; daily_bar 2 2; daily_bar 9 3]) = Ts t0
    /\ series_max (map time [daily_bar 5 1; daily_bar 2 2; daily_bar 9 3]) = Ts m
    /\ (exists r, In r (add_features [daily_bar 5 1; daily_bar 2 2; daily_bar 9 3])
                  /\ row_time r = Ts t0 /\ time_idx r = Some 0)
    /\ (forall r k, In r (add_features [daily_bar 5 1; daily_bar 2 2; daily_bar 9 3]) ->
          time_idx r = Some k -> 0 <= k <= (m - t0) / NS_PER_DAY).
Proof.
  apply (@time_idx_range [daily_bar 5 1; daily_bar 2 2; daily_bar 9 3]
           (daily_bar 5 1) (5 * NS_PER_DAY)).
  - now left.
  - reflexivity.
Defined.

(** ** Row order *)

Lemma ts_min2_swap (x y z : Timestamp) :
  ts_min2 y (ts_min2 x z) = ts_min2 x (ts_min2 y z).
Proof.
  destruct x, y, z; simpl; try reflexivity; f_equal; lia.
Qed.

Lemma ts_max2_swap (x y z : Timestamp) :
  ts_max2 y (ts_max2 x z) = ts_max2 x (ts_max2 y z).
Proof.
  destruct x, y, z; simpl; try reflexivity; f_equal; lia.
Qed.

Lemma series_min_perm (l l' : list Timestamp) :
  Permutation l l' -> series_min l = series_min l'.
Proof.
  induction 1 as [|x l l' _ IH|x y l|l l' l'' _ IH1 _ IH2]; simpl.
  - reflexivity.
  - fold (series_min l). fold (series_min l'). now rewrite IH.
  - apply ts_min2_swap.
  - congruence.
Qed.

Lemma series_max_perm (l l' : list Timestamp) :
  Permutation l l' -> series_max l = series_max l'.
Proof.
  induction 1 as [|x l l' _ IH|x y l|l l' l'' _ IH1 _ IH2]; simpl.
  - reflexivity.
  - fold (series_max l). fold (series_max l'). now rewrite IH.
  - apply ts_max2_swap.
  - congruence.
Qed.

Lemma filter_perm {A} (p : A -> bool) (l l' : list A) :
  Permutation l l' -> Permutation (filter p l) (filter p l').
Proof.
  induction 1 as [|x l l' _ IH|x y l|l l' l'' _ IH1 _ IH2]; simpl.
  - constructor.
  - destruct (p x); [now constructor | exact IH].
  - destruct (p x), (p y); try apply Permutation_refl. apply perm_swap.
  - eapply Permutation_trans; eassumption.
Qed.

(** X17.  Which rows are trained on, which are held out and which day
    index a row gets do not depend on the order of the rows: reordering
    the table reorders the prepared rows, the training rows and the
    held-out rows, and leaves the cutoff and the last known date alone. *)
Theorem row_order_is_immaterial (df0 df0' : DataFrame) :
  Permutation df0 df0' ->
  Permutation (add_features df0) (add_features df0')
  /\ training_cutoff (add_features df0) = training_cutoff (add_features df0')
  /\ last_known_date (add_features df0) = last_known_date (add_features df0')
  /\ Permutation (data (training (add_features df0))) (data (training (add_features df0')))
  /\ Permutation (held_out (add_features df0)) (held_out (add_features df0')).
Proof.
  intros Hp.
  assert (Hmin : series_min (map time df0) = series_min (map time df0'))
    by (apply series_min_perm; now apply Permutation_map).
  assert (Hmax : series_max (map time df0) = series_max (map time df0'))
    by (apply series_max_perm; now apply Permutation_map).
  assert (Hrows : Permutation (add_features df0) (add_features df0')).
  { unfold add_features. rewrite Hmin. now apply Permutation_map. }
  assert (Hcut : training_cutoff (add_features df0) = training_cutoff (add_features df0')).
  { unfold training_cutoff. now rewrite !add_features_times, Hmax. }
  split; [exact Hrows|]. split; [exact Hcut|]. split; [|split].
  - unfold last_known_date. now rewrite !add_features_times.
  - simpl. unfold training_split. rewrite Hcut. now apply filter_perm.
  - unfold held_out. rewrite Hcut. now apply filter_perm.
Qed.

Lemma row_order_is_immaterial_witness :
  training_cutoff (add_features [daily_bar 9 1; daily_bar 0 2])
  = training_cutoff (add_features [daily_bar 0 2; daily_bar 9 1]).
Proof.
  apply (@row_order_is_immaterial [daily_bar 9 1; daily_bar 0 2]
           [daily_bar 0 2; daily_bar 9 1]).
  apply perm_swap.
Defined.

(** ** A gap-free daily table *)

Lemma zrange_nil (lo hi : Z) : hi <= lo -> zrange lo hi = [].
Proof.
  intros H. unfold zrange. replace (Z.to_nat (hi - lo)) with 0%nat by lia. reflexivity.
Qed.

Lemma zrange_cons (lo hi : Z) : lo < hi -> zrange lo hi = lo :: zrange (lo + 1) hi.
Proof.
  intros H. unfold zrange.
  replace (Z.to_nat (hi - lo)) with (S (Z.to_nat (hi - (lo + 1)))) by lia.
  cbn [seq map]. f_equal; [lia|].
  rewrite <- seq_shift, map_map. apply map_ext. intros i. lia.
Qed.

Lemma zrange_length (lo hi : Z) : List.length (zrange lo hi) = Z.to_nat (hi - lo).
Proof.
  unfold zrange. now rewrite length_map, length_seq.
Qed.

Lemma in_daily_times (t0 n : Z) (x : Timestamp) :
  In x (daily_times t0 n) <-> exists i, 0 <= i < n /\ x = Ts (t0 + i * NS_PER_DAY).
Proof.
  unfold daily_times. rewrite in_map_iff. split.
  - intros (i & <- & Hi). apply in_zrange in Hi. now exists i.
  - intros (i & Hi & ->). exists i. split; [reflexivity | now apply in_zrange].
Qed.

Lemma series_min_daily (t0 n : Z) : 0 < n -> series_min (daily_times t0 n) = Ts t0.
Proof.
  intros Hn. pose proof NS_PER_DAY_pos as Hpos.
  assert (H0 : In (Ts t0) (daily_times t0 n)).
  { apply in_daily_times. exists 0. split; [lia | f_equal; lia]. }
  destruct (series_min_cases (daily_times t0 n)) as [[_ H]|(m & E & Hin & Hlb)].
  - apply H in H0. discriminate.
  - rewrite E. f_equal. apply in_daily_times in Hin. destruct Hin as (i & Hi & Hm).
    injection Hm as ->. specialize (Hlb t0 H0). nia.
Qed.

Lemma series_max_daily (t0 n : Z) :
  0 < n -> series_max (daily_times t0 n) = Ts (t0 + (n - 1) * NS_PER_DAY).
Proof.
  intros Hn. pose proof NS_PER_DAY_pos as Hpos.
  assert (H0 : In (Ts (t0 + (n - 1) * NS_PER_DAY)) (daily_times t0 n)).
  { apply in_daily_times. exists (n - 1). split; [lia | reflexivity]. }
  destruct (series_max_cases (daily_times t0 n)) as [[_ H]|(m & E & Hin & Hub)].
  - apply H in H0. discriminate.
  - rewrite E. f_equal. apply in_daily_times in Hin. destruct Hin as (i & Hi & Hm).
    injection Hm as ->. specialize (Hub _ H0). nia.
Qed.

(** On consecutive days, the rows up to day [c] are a prefix. *)
Lemma daily_split (t0 c hi : Z) (l : list Row) (lo : Z) :
  map row_time l = map (fun i => Ts (t0 + i * NS_PER_DAY)) (zrange lo hi) ->
  filter (fun x => ts_leb (row_time x) (Ts (t0 + c * NS_PER_DAY))) l
  = firstn (Z.to_nat (c + 1 - lo)) l
  /\ filter (fun x => negb (ts_leb (row_time x) (Ts (t0 + c * NS_PER_DAY)))) l
     = skipn (Z.to_nat (c + 1 - lo)) l.
Proof.
  revert lo. induction l as [|r l IH]; intros lo H.
  - rewrite firstn_nil, skipn_nil. split; reflexivity.
  - destruct (Z_lt_le_dec lo hi) as [Hlt|Hge];
      [|rewrite (zrange_nil Hge) in H; discriminate H].
    rewrite (zrange_cons Hlt) in H. cbn [map] in H. injection H as Hr Hl.
    destruct (IH _ Hl) as [IH1 IH2]. cbn [filter]. rewrite Hr.
    pose proof NS_PER_DAY_pos as Hpos.
    destruct (Z_le_gt_dec lo c) as [Hle|Hgt].
    + assert (E : ts_leb (Ts (t0 + lo * NS_PER_DAY)) (Ts (t0 + c * NS_PER_DAY)) = true)
        by (apply Z.leb_le; nia).
      rewrite E. cbn [negb].
      replace (Z.to_nat (c + 1 - lo)) with (S (Z.to_nat (c + 1 - (lo + 1)))) by lia.
      cbn [firstn skipn]. rewrite IH1, IH2. split; reflexivity.
    + assert (E : ts_leb (Ts (t0 + lo * NS_PER_DAY)) (Ts (t0 + c * NS_PER_DAY)) = false)
        by (apply Z.leb_gt; nia).
      rewrite E. cbn [negb]. rewrite IH1, IH2.
      replace (Z.to_nat (c + 1 - lo)) with 0%nat by lia.
      replace (Z.to_nat (c + 1 - (lo + 1))) with 0%nat by lia.
      split; reflexivity.
Qed.

(** X18.  On a table of [n] rows on consecutive days, in order, the day
    indices are 0, 1, ..., n-1, the training rows are the first [n - 7]
    rows and the held-out rows are the rest: exactly the last 7 rows
    once the table has 7 rows or more. *)
Theorem daily_table_features (df0 : DataFrame) (t0 n : Z) :
  map time df0 = daily_times t0 n ->
  let df := add_features df0 in
  map time_idx df = map Some (zrange 0 n)
  /\ data (training df) = firstn (Z.to_nat (n - 7)) df
  /\ held_out df = skipn (Z.to_nat (n - 7)) df
  /\ (7 <= n -> List.length (held_out df) = 7%nat
               /\ Z.of_nat (List.length (data (training df))) = n - 7).
Proof.
  intros H df. pose proof NS_PER_DAY_pos as Hpos.
  destruct (Z_lt_le_dec 0 n) as [Hn|Hn].
  - assert (Hidx : map time_idx df = map Some (zrange 0 n)).
    { unfold df, add_features. rewrite map_map. cbn [time_idx].
      rewrite H, (series_min_daily t0 Hn).
      rewrite <- (map_map time (fun t => dt_days (ts_diff t (Ts t0)))), H.
      unfold daily_times. rewrite map_map. apply map_ext. intros i.
      cbn [ts_diff dt_days]. f_equal.
      replace (t0 + i * NS_PER_DAY - t0) with (i * NS_PER_DAY) by lia.
      apply Z.div_mul. lia. }
    assert (Hcut : training_cutoff df = Ts (t0 + (n - 8) * NS_PER_DAY)).
    { unfold training_cutoff, df. rewrite add_features_times, H, (series_max_daily t0 Hn).
      unfold ts_sub, Timedelta_days, MAX_PREDICTION_LENGTH. f_equal. lia. }
    assert (Htimes : map row_time df
                     = map (fun i => Ts (t0 + i * NS_PER_DAY)) (zrange 0 n)).
    { unfold df. rewrite add_features_times. exact H. }
    destruct (@daily_split t0 (n - 8) n df 0 Htimes) as [Htrain Hheld].
    replace (Z.to_nat (n - 8 + 1 - 0)) with (Z.to_nat (n - 7)) in Htrain, Hheld by lia.
    assert (Hlen : List.length df = Z.to_nat n).
    { rewrite <- (length_map row_time), Htimes, length_map, zrange_length. f_equal. lia. }
    split; [exact Hidx|]. split; [|split].
    + cbn [data training]. unfold training_split. rewrite Hcut. exact Htrain.
    + unfold held_out. rewrite Hcut. exact Hheld.
    + intros H7. split.
      * unfold held_out. rewrite Hcut, Hheld, length_skipn, Hlen. lia.
      * cbn [data training]. unfold training_split.
        rewrite Hcut, Htrain, length_firstn, Hlen. lia.
  - assert (E : df0 = []).
    { unfold daily_times in H. rewrite (zrange_nil Hn) in H. now apply map_eq_nil in H. }
    subst df0. rewrite (zrange_nil Hn). cbn.
    rewrite firstn_nil, skipn_nil. repeat split; lia.
Qed.

(** Ten daily bars: three training rows, seven held out. *)
Lemma daily_table_features_witness :
  map time_idx (add_features (daily_table 10)) = map Some (zrange 0 10)
  /\ List.length (held_out (add_features (daily_table 10))) = 7%nat
  /\ Z.of_nat (List.length (data (training (add_features (daily_table 10))))) = 10 - 7.
Proof.
  destruct (@daily_table_features (daily_table 10) 0 10) as (H1 & _ & _ & H4).
  - vm_compute. reflexivity.
  - split; [exact H1|]. apply H4. lia.
Defined.

(** ** The steps of the adapter *)

(** On the same batch [training_step] and [validation_step]
    return the same value, the wrapped model's own loss applied to the
    model's prediction; the batch index plays no part; each logs that
    value once, weighted by the first dimension of [decoder_cont], under
    "train_loss" and "val_loss" respectively. *)
Theorem steps_compute_the_model_loss
    (Inputs Target Tensor : Type) (decoder_cont_shape0 : Inputs -> Z)
    (model_prediction : TemporalFusionTransformer -> Inputs -> Tensor)
    (apply_loss : QuantileLoss -> Tensor -> Target -> Tensor)
    (tft_model : TemporalFusionTransformer) (x : Inputs) (y : Target) (i j : Z) :
  let self := LightningTFT_init tft_model in
  let value := apply_loss (loss tft_model) (model_prediction tft_model x) y in
  training_step decoder_cont_shape0 model_prediction apply_loss self (x, y) i
  = (value, [mkLogged "train_loss" value (decoder_cont_shape0 x)])
  /\ validation_step decoder_cont_shape0 model_prediction apply_loss self (x, y) j
     = (value, [mkLogged "val_loss" value (decoder_cont_shape0 x)])
  /\ fst (training_step decoder_cont_shape0 model_prediction apply_loss self (x, y) i)
     = fst (validation_step decoder_cont_shape0 model_prediction apply_loss self (x, y) j).
Proof.
  repeat split.
Qed.

(** X19.  The metric the scheduler configuration and the early-stopping
    callback of the trainer watch is the one [validation_step] logs;
    [training_step] does not log it. *)
Theorem monitored_metric_is_logged
    (Inputs Target Tensor : Type) (decoder_cont_shape0 : Inputs -> Z)
    (model_prediction : TemporalFusionTransformer -> Inputs -> Tensor)
    (apply_loss : QuantileLoss -> Tensor -> Target -> Tensor)
    (self : LightningTFT) (batch : Inputs * Target) (i : Z) :
  map (@log_name Tensor)
      (snd (validation_step decoder_cont_shape0 model_prediction apply_loss self batch i))
  = [monitor (configure_optimizers self)]
  /\ In (EarlyStoppingCallback early_stop_callback) (callbacks trainer)
  /\ es_monitor early_stop_callback = monitor (configure_optimizers self)
  /\ ~ In (monitor (configure_optimizers self))
          (map (@log_name Tensor)
             (snd (training_step decoder_cont_shape0 model_prediction apply_loss self batch i))).
Proof.
  destruct batch as [x y]. repeat split.
  - simpl. right. left. reflexivity.
  - simpl. intros [H|[]]. discriminate H.
Qed.

(** ** From the answer of the endpoint to the report *)

Lemma sorted_unix (zs : list Z) :
  Sorted Z.le zs -> Sorted ts_le (map (fun z => Ts (z * NS_PER_SECOND)) zs).
Proof.
  induction 1 as [|z zs Hs IH Hhd]; cbn [map]; constructor; [exact IH|].
  destruct Hhd as [|z' zs' Hle]; cbn [map]; constructor.
  unfold ts_le, ts_leb. apply Z.leb_le. unfold NS_PER_SECOND. lia.
Qed.

Lemma times_of_records (recs : list (list (string * pyobj))) :
  Forall int_time recs ->
  map time (map bar_of_record recs)
  = map (fun z => Ts (z * NS_PER_SECOND)) (map unix_time recs).
Proof.
  induction 1 as [|rec recs [z Hz] _ IH]; cbn [map]; [reflexivity|].
  rewrite IH. f_equal. unfold bar_of_record, unix_time. cbn [time]. now rewrite Hz.
Qed.

(** X20.  When the endpoint sends its records with integer times in
    ascending order, the whole chain is in order: the table is fetched in
    that order, the day index never decreases along the rows, the split
    is a prefix and a suffix, and the last record is the one whose close
    is printed and whose time is the last known date. *)
Theorem ascending_answer_keeps_the_pipeline_in_order
    (DataFrame_other : pyobj -> list string -> result (list RawRow))
    (to_datetime_other : pyobj -> result Timestamp)
    (srv : Server) (recs : list (list (string * pyobj))) (rec : list (string * pyobj)) :
  answers srv (recs ++ [rec]) ->
  Forall int_time (recs ++ [rec]) ->
  Sorted Z.le (map unix_time (recs ++ [rec])) ->
  let df0 := map bar_of_record (recs ++ [rec]) in
  let df := add_features df0 in
  run (fetch_data DataFrame_other to_datetime_other) srv = ([fetch_request], Ok df0)
  /\ Sorted ts_le (map time df0)
  /\ StronglySorted idx_le (map time_idx df)
  /\ data (training df) ++ held_out df = df
  /\ last_known_price df = Ok (dict_get rec "close")
  /\ last_known_date df = Ts (unix_time rec * 1000000000).
Proof.
  intros Hans Hint Hsorted df0 df.
  assert (Hs : Sorted ts_le (map time df0)).
  { unfold df0. rewrite (times_of_records Hint). now apply sorted_unix. }
  split; [|split; [exact Hs|split; [|split; [|split]]]].
  - rewrite (fetch_data_answers DataFrame_other to_datetime_other Hans).
    now rewrite (convert_records to_datetime_other Hint).
  - now apply sorted_time_idx.
  - apply Sorted_StronglySorted in Hs; [|exact ts_le_trans].
    cbn [data training]. unfold training_split, held_out. apply sorted_split.
    unfold df. now rewrite add_features_times.
  - unfold last_known_price, df. rewrite <- (map_map bar close), add_features_bars.
    unfold df0. rewrite !map_app. cbn [map]. apply iloc_last_snoc.
  - unfold last_known_date, df. rewrite add_features_times.
    assert (Hs' : Sorted ts_le (map time (map bar_of_record recs) ++ [time (bar_of_record rec)])).
    { unfold df0 in Hs. now rewrite !map_app in Hs. }
    unfold df0. rewrite !map_app. cbn [map].
    rewrite (series_max_sorted_last _ _ Hs').
    apply Forall_app in Hint. destruct Hint as [_ Hrec].
    apply Forall_inv in Hrec. destruct Hrec as [z Hz].
    unfold bar_of_record, unix_time. cbn [time]. now rewrite Hz.
Qed.

Lemma ascending_answer_keeps_the_pipeline_in_order_witness :
  last_known_price (add_features (map bar_of_record
      ([[("time", PInt 1699920000); ("close", PFloat (19802 # 10))]] ++ [api_record])))
  = Ok (Some (PFloat (20597 # 10)))
  /\ last_known_date (add_features (map bar_of_record
      ([[("time", PInt 1699920000); ("close", PFloat (19802 # 10))]] ++ [api_record])))
     = Ts (1700006400 * 1000000000).
Proof.
  destruct (@ascending_answer_keeps_the_pipeline_in_order no_frame no_datetime
              (records_server
                 ([[("time", PInt 1699920000); ("close", PFloat (19802 # 10))]] ++ [api_record]))
              [[("time", PInt 1699920000); ("close", PFloat (19802 # 10))]] api_record)
    as (_ & _ & _ & _ & Hprice & Hdate).
  - apply records_server_answers.
  - constructor; [exists 1699920000; reflexivity|].
    constructor; [exists 1700006400; reflexivity | constructor].
  - vm_compute.
    repeat first [apply Sorted_nil | apply Sorted_cons | apply HdRel_nil | apply HdRel_cons].
    discriminate.
  - split; [exact Hprice | exact Hdate].
Defined.

(** ** The dates and the price of the report *)

Lemma iloc_last_nonempty {A} (l : list A) : l <> [] -> exists x, iloc_last l = Ok x.
Proof.
  intros H. destruct (exists_last H) as (l' & x & ->). exists x. apply iloc_last_snoc.
Qed.

(** A timestamp that a row carries and that bounds every row is the last
    known date. *)
Lemma last_known_date_is_max (df0 : DataFrame) (b : Bar) (m : Z) :
  In b df0 -> time b = Ts m ->
  (forall b' t, In b' df0 -> time b' = Ts t -> t <= m) ->
  last_known_date (add_features df0) = Ts m.
Proof.
  intros Hb Hm Hbound. unfold last_known_date. rewrite add_features_times.
  assert (Hmem : In (Ts m) (map time df0)) by (rewrite <- Hm; now apply in_map).
  destruct (series_max_cases (map time df0)) as [[_ H]|(m' & E & Hin & Hub)].
  - apply H in Hmem. discriminate.
  - rewrite E. f_equal. apply in_map_iff in Hin. destruct Hin as (b' & Hb' & Hin').
    pose proof (Hbound b' m' Hin' Hb'). pose proof (Hub m Hmem). lia.
Qed.

(** A forecast shaped by the validation loader, and not empty, has one
    column per day of the prediction horizon. *)
Lemma forecast_width (df : list Row) (pp : ndarray) :
  forecast_shaped_by (val_dataloader df) pp ->
  (0 < shape0 pp)%nat ->
  shape1 pp = 7%nat.
Proof.
  intros [Hrows Hcols] Hpos.
  change (loader_dataset (val_dataloader df)) with (validation df) in Hrows, Hcols.
  destruct (windows (validation df)) as [|[e d] ws] eqn:E.
  - simpl in Hrows. lia.
  - specialize (Hcols e d (or_introl eq_refl)).
    assert (Hin : In (e, d) (window_lengths (validation df) (steps (validation df)))).
    { fold (windows (validation df)). rewrite E. now left. }
    apply validation_window_lengths in Hin. destruct Hin as [_ Hd].
    unfold MAX_PREDICTION_LENGTH in Hd. lia.
Qed.

(** C3.  Let [m] be the maximum timestamp of the fetched table: some row
    carries it and no row is later.  When the forecast is the one the
    framework returns for the validation loader, shaped by that loader's
    windows and not empty, it has 7 columns, [last_known_date] is [m],
    and the future dates are exactly [m + 1 day, ..., m + 7 days]: one
    per forecast value, strictly increasing, none twice.  They are the
    dates the script pairs with the forecast in what it prints and
    plots. *)
Theorem future_dates_next_seven_days
    (DataFrame_other : pyobj -> list string -> result (list RawRow))
    (to_datetime_other : pyobj -> result Timestamp)
    (fit_then_predict :
       Trainer -> LightningTFT -> OptimizerConfig -> DataLoader -> DataLoader -> result ndarray)
    (srv : Server) (tr : list Request) (df0 : DataFrame)
    (predicted_prices : ndarray) (b : Bar) (m : Z) :
  let df := add_features df0 in
  let dates := [Ts (m + 1 * NS_PER_DAY); Ts (m + 2 * NS_PER_DAY); Ts (m + 3 * NS_PER_DAY);
                Ts (m + 4 * NS_PER_DAY); Ts (m + 5 * NS_PER_DAY); Ts (m + 6 * NS_PER_DAY);
                Ts (m + 7 * NS_PER_DAY)] in
  run (fetch_data DataFrame_other to_datetime_other) srv = (tr, Ok df0) ->
  fit_then_predict trainer (LightningTFT_init (tft df))
    (configure_optimizers (LightningTFT_init (tft df)))
    (train_dataloader df) (val_dataloader df) = Ok predicted_prices ->
  forecast_shaped_by (val_dataloader df) predicted_prices ->
  (0 < shape0 predicted_prices)%nat ->
  In b df0 -> time b = Ts m ->
  (forall b' t, In b' df0 -> time b' = Ts t -> t <= m) ->
  last_known_date df = Ts m
  /\ shape1 predicted_prices = 7%nat
  /\ future_dates df predicted_prices = dates
  /\ (forall row, first_row predicted_prices = Ok row ->
        List.length (future_dates df predicted_prices) = List.length row)
  /\ StronglySorted ts_lt (future_dates df predicted_prices)
  /\ NoDup (future_dates df predicted_prices)
  /\ exists price row,
       first_row predicted_prices = Ok row
       /\ run (script DataFrame_other to_datetime_other fit_then_predict) srv
          = (tr, Ok [PrintLastKnownPrice price;
                     PrintPredictions (combine dates row);
                     ShowPlot (map (fun r => (row_time r, close (bar r))) df)
                       (combine dates row)]).
Proof.
  intros df dates Hfetch Hfit Hshaped Hrows Hb Hm Hbound.
  assert (Hlast : last_known_date df = Ts m)
    by exact (@last_known_date_is_max df0 b m Hb Hm Hbound).
  assert (Hwidth : shape1 predicted_prices = 7%nat)
    by exact (@forecast_width df predicted_prices Hshaped Hrows).
  assert (Hdates : future_dates df predicted_prices = dates).
  { unfold future_dates. rewrite Hwidth, Hlast. reflexivity. }
  split; [exact Hlast|]. split; [exact Hwidth|]. split; [exact Hdates|]. split.
  { intros row Hrow. rewrite future_dates_length. symmetry. now apply first_row_length. }
  pose proof NS_PER_DAY_pos as Hpos. split; [|split].
  - rewrite Hdates. unfold dates.
    repeat (constructor; [|repeat (constructor; [simpl; lia|]); constructor]).
    constructor.
  - rewrite Hdates. unfold dates.
    repeat (constructor; [simpl; intros H;
      repeat (destruct H as [H|H]; [injection H as H; lia|]); exact H|]).
    constructor.
  - assert (Hne : map (fun r => close (bar r)) df <> []).
    { intros E. apply map_eq_nil in E. unfold df, add_features in E.
      apply map_eq_nil in E. subst df0. destruct Hb. }
    destruct (iloc_last_nonempty Hne) as (price & Hprice).
    exists price, (map (item predicted_prices 0) (seq 0 (shape1 predicted_prices))).
    assert (Hrow : first_row predicted_prices
                   = Ok (map (item predicted_prices 0) (seq 0 (shape1 predicted_prices)))).
    { unfold first_row. destruct (shape0 predicted_prices); [lia | reflexivity]. }
    split; [exact Hrow|].
    rewrite (script_after_fetch DataFrame_other to_datetime_other fit_then_predict _ Hfetch).
    unfold trainer_fit_predict. fold df. rewrite Hfit. cbn [result_bind].
    rewrite Hrow. cbn [result_bind].
    unfold last_known_price. rewrite Hprice. cbn [result_bind].
    now rewrite Hdates.
Qed.

(** Two hundred daily bars, the last on day 199, and a flat forecast of
    seven values: the dates are days 200 to 206. *)
Lemma future_dates_next_seven_days_witness :
  future_dates (add_features (daily_table 200)) (mkndarray 1 7 (fun _ _ => 2000 # 1))
  = [Ts (199 * NS_PER_DAY + 1 * NS_PER_DAY); Ts (199 * NS_PER_DAY + 2 * NS_PER_DAY);
     Ts (199 * NS_PER_DAY + 3 * NS_PER_DAY); Ts (199 * NS_PER_DAY + 4 * NS_PER_DAY);
     Ts (199 * NS_PER_DAY + 5 * NS_PER_DAY); Ts (199 * NS_PER_DAY + 6 * NS_PER_DAY);
     Ts (199 * NS_PER_DAY + 7 * NS_PER_DAY)]
  /\ exists price row,
       first_row (mkndarray 1 7 (fun _ _ => 2000 # 1)) = Ok row
       /\ run (script no_frame no_datetime flat_forecast) (daily_server 200)
          = ([fetch_request],
             Ok [PrintLastKnownPrice price;
                 PrintPredictions
                   (combine
                      [Ts (199 * NS_PER_DAY + 1 * NS_PER_DAY);
                       Ts (199 * NS_PER_DAY + 2 * NS_PER_DAY);
                       Ts (199 * NS_PER_DAY + 3 * NS_PER_DAY);
                       Ts (199 * NS_PER_DAY + 4 * NS_PER_DAY);
                       Ts (199 * NS_PER_DAY + 5 * NS_PER_DAY);
                       Ts (199 * NS_PER_DAY + 6 * NS_PER_DAY);
                       Ts (199 * NS_PER_DAY + 7 * NS_PER_DAY)] row);
                 ShowPlot (map (fun r => (row_time r, close (bar r)))
                             (add_features (daily_table 200)))
                   (combine
                      [Ts (199 * NS_PER_DAY + 1 * NS_PER_DAY);
                       Ts (199 * NS_PER_DAY + 2 * NS_PER_DAY);
                       Ts (199 * NS_PER_DAY + 3 * NS_PER_DAY);
                       Ts (199 * NS_PER_DAY + 4 * NS_PER_DAY);
                       Ts (199 * NS_PER_DAY + 5 * NS_PER_DAY);
                       Ts (199 * NS_PER_DAY + 6 * NS_PER_DAY);
                       Ts (199 * NS_PER_DAY + 7 * NS_PER_DAY)] row)]).
Proof.
  destruct (@future_dates_next_seven_days no_frame no_datetime flat_forecast
              (daily_server 200) [fetch_request] (daily_table 200)
              (mkndarray 1 7 (fun _ _ => 2000 # 1)) (daily_bar 199 299) (199 * NS_PER_DAY))
    as (_ & _ & Hdates & _ & _ & _ & Hrun).
  - vm_compute. reflexivity.
  - reflexivity.
  - assert (E : windows (loader_dataset (val_dataloader (add_features (daily_table 200))))
                = [(193, 7)]) by (vm_compute; reflexivity).
    unfold forecast_shaped_by. rewrite E. split; [reflexivity|].
    intros e d [H|[]]. injection H as _ <-. reflexivity.
  - simpl. lia.
  - unfold daily_table. apply in_map_iff. exists 199. split; [reflexivity|].
    apply in_zrange. lia.
  - reflexivity.
  - intros b' t Hin Ht. unfold daily_table in Hin. apply in_map_iff in Hin.
    destruct Hin as (d & <- & Hd). apply in_zrange in Hd.
    unfold daily_bar in Ht. cbn [time] in Ht. injection Ht as <-.
    pose proof NS_PER_DAY_pos. nia.
  - split; [exact Hdates | exact Hrun].
Defined.

(** C10.  The price the script prints is the close of the final row of
    the table, the rows being kept in the order received, while the date
    it goes with, [last_known_date], is the maximum of the time column.
    The final row carries that date exactly when no other row is later,
    which ascending order guarantees.  Nothing in the script puts the
    rows in order: on the answer with the later day first it prints the
    close of the earlier day, which is not the last known date. *)
Theorem last_known_price_is_final_row
    (DataFrame_other : pyobj -> list string -> result (list RawRow))
    (to_datetime_other : pyobj -> result Timestamp)
    (fit_then_predict :
       Trainer -> LightningTFT -> OptimizerConfig -> DataLoader -> DataLoader -> result ndarray)
    (srv : Server) (tr : list Request) (df0 : DataFrame) (b : Bar) :
  let df := add_features (df0 ++ [b]) in
  map bar df = df0 ++ [b]
  /\ last_known_price df = Ok (close b)
  /\ last_known_date df = series_max (map time (df0 ++ [b]))
  /\ (Sorted ts_le (map time (df0 ++ [b])) -> last_known_date df = time b)
  /\ (forall t, time b = Ts t ->
        (last_known_date df = time b <->
         forall b' t', In b' df0 -> time b' = Ts t' -> t' <= t))
  /\ (run (fetch_data DataFrame_other to_datetime_other) srv = (tr, Ok (df0 ++ [b])) ->
      forall tr' outs,
        run (script DataFrame_other to_datetime_other fit_then_predict) srv = (tr', Ok outs) ->
        exists predictions plot,
          outs = [PrintLastKnownPrice (close b); PrintPredictions predictions; plot])
  /\ (let unsorted := add_features ([daily_bar 1 101] ++ [daily_bar 0 100]) in
      ~ Sorted ts_le (map row_time unsorted)
      /\ last_known_price unsorted = Ok (Some (PInt 100))
      /\ last_known_date unsorted = Ts (1 * NS_PER_DAY)
      /\ last_known_date unsorted <> time (daily_bar 0 100)
      /\ run (script no_frame no_datetime flat_forecast)
             (records_server [day_record 1; day_record 0])
         = ([fetch_request],
            Ok [PrintLastKnownPrice (Some (PInt 100));
                PrintPredictions
                  (combine (future_dates unsorted (mkndarray 1 7 (fun _ _ => 2000 # 1)))
                     [2000 # 1; 2000 # 1; 2000 # 1; 2000 # 1; 2000 # 1; 2000 # 1; 2000 # 1]);
                ShowPlot (map (fun r => (row_time r, close (bar r))) unsorted)
                  (combine (future_dates unsorted (mkndarray 1 7 (fun _ _ => 2000 # 1)))
                     [2000 # 1; 2000 # 1; 2000 # 1; 2000 # 1; 2000 # 1; 2000 # 1; 2000 # 1])])).
Proof.
  intros df.
  assert (Hbars : map bar df = df0 ++ [b]) by apply add_features_bars.
  assert (Hdate : last_known_date df = series_max (map time (df0 ++ [b]))).
  { unfold last_known_date, df. now rewrite add_features_times. }
  assert (Hprice : last_known_price df = Ok (close b)).
  { unfold last_known_price. rewrite <- (map_map bar close), Hbars, map_app. cbn [map].
    apply iloc_last_snoc. }
  split; [exact Hbars|]. split; [exact Hprice|]. split; [exact Hdate|].
  split; [|split; [|split]].
  - intros Hs. rewrite Hdate. rewrite map_app in *. cbn [map] in *.
    now apply series_max_sorted_last.
  - intros t Ht. rewrite Hdate, Ht.
    assert (Hmem : In (Ts t) (map time (df0 ++ [b]))).
    { rewrite <- Ht. apply in_map, in_or_app. right. now left. }
    destruct (series_max_cases (map time (df0 ++ [b]))) as [[_ H]|(m & E & Hin & Hub)];
      [apply H in Hmem; discriminate|].
    rewrite E. split.
    + intros Heq b' t' Hb' Ht'. injection Heq as ->. apply Hub.
      rewrite <- Ht'. apply in_map, in_or_app. now left.
    + intros Hbound. f_equal. pose proof (Hub t Hmem).
      apply in_map_iff in Hin. destruct Hin as (b' & Hb' & Hin').
      apply in_app_or in Hin'. destruct Hin' as [Hin'|[<-|[]]].
      * pose proof (Hbound b' m Hin' Hb'). lia.
      * rewrite Ht in Hb'. now injection Hb' as ->.
  - intros Hfetch tr' outs Hrun.
    rewrite (script_after_fetch DataFrame_other to_datetime_other fit_then_predict _ Hfetch)
      in Hrun.
    fold df in Hrun.
    destruct (trainer_fit_predict _ _ _ _ _) as [pp|e]; cbn [result_bind] in Hrun;
      [|discriminate Hrun].
    destruct (first_row pp) as [row|e]; cbn [result_bind] in Hrun; [|discriminate Hrun].
    rewrite Hprice in Hrun. cbn [result_bind] in Hrun. injection Hrun as _ <-.
    do 2 eexists. reflexivity.
  - cbn zeta. split; [|split; [|split; [|split]]].
    + intros Hs. vm_compute in Hs.
      apply Sorted_inv in Hs. destruct Hs as [_ Hs].
      apply HdRel_inv in Hs. discriminate Hs.
    + vm_compute. reflexivity.
    + vm_compute. reflexivity.
    + intros H. vm_compute in H. discriminate H.
    + vm_compute. reflexivity.
Qed.

(** Three daily bars in order: the final row is day 2, so is the last
    known date, and a completed run prints that row's close. *)
Lemma last_known_price_is_final_row_witness :
  last_known_price (add_features (daily_table 3)) = Ok (Some (PInt 102))
  /\ last_known_date (add_features (daily_table 3)) = Ts (2 * NS_PER_DAY)
  /\ exists predictions plot,
       [PrintLastKnownPrice (Some (PInt 102));
        PrintPredictions (combine (future_dates (add_features (daily_table 3))
                                     (mkndarray 1 7 (fun _ _ => 2000 # 1)))
                            [2000 # 1; 2000 # 1; 2000 # 1; 2000 # 1; 2000 # 1; 2000 # 1;
                             2000 # 1]);
        ShowPlot (map (fun r => (row_time r, close (bar r))) (add_features (daily_table 3)))
          (combine (future_dates (add_features (daily_table 3))
                      (mkndarray 1 7 (fun _ _ => 2000 # 1)))
             [2000 # 1; 2000 # 1; 2000 # 1; 2000 # 1; 2000 # 1; 2000 # 1; 2000 # 1])]
       = [PrintLastKnownPrice (Some (PInt 102)); PrintPredictions predictions; plot].
Proof.
  destruct (@last_known_price_is_final_row no_frame no_datetime flat_forecast
              (daily_server 3) [fetch_request]
              [daily_bar 0 100; daily_bar 1 101] (daily_bar 2 102))
    as (_ & Hprice & _ & Hdate & _ & Hrun & _).
  assert (Hfetch : run (fetch_data no_frame no_datetime) (daily_server 3)
                   = ([fetch_request], Ok ([daily_bar 0 100; daily_bar 1 101] ++ [daily_bar 2 102])))
    by (vm_compute; reflexivity).
  split; [exact Hprice|]. split.
  - apply Hdate. vm_compute.
    repeat first [apply Sorted_nil | apply Sorted_cons | apply HdRel_nil | apply HdRel_cons];
      reflexivity.
  - apply (Hrun Hfetch [fetch_request]). vm_compute. reflexivity.
Defined.
